(** * CCoin inference layer: task queue, gradient quality, gradient hash,
      commitment proof.

    A shallow embedding of [inference/src/models.py] (hash_gradients,
    compute_gradient_quality) and [inference/src/gradient.py]
    (GradientComputer, TaskQueue), with the properties of the design
    document stated over it.

    Conventions of the embedding.
    - A Python exception is a value [Raise e] of the [result] type; a
      function that cannot raise is a plain function.
    - An object with mutable fields (GradientComputer, TaskQueue) is a
      record; a method takes the record and returns the updated record next
      to its return value.
    - A Python [float] is a [pyfloat]: an exact real number, one of the two
      infinities, or NaN.  The special values follow IEEE 754 and CPython,
      and [x ** 2] raises OverflowError beyond the largest double; apart
      from that finite arithmetic is exact: rounding is outside the model.
    - torch, hashlib and the wall clock are collaborators: their operations
      are variables of the sections below. *)

From Stdlib Require Import List String Ascii Bool ZArith Lia.
From Stdlib Require Import Reals Lra.
From Stdlib Require Import Permutation Sorted.
From Stdlib Require Strings.Byte.
Import ListNotations.

Set Implicit Arguments.

(** ** Exceptions *)

Inductive exn : Type :=
| ValueError (msg : string)
| KeyError (key : string)
| ZeroDivisionError
| OverflowError
| TypeError.

Inductive result (A : Type) : Type :=
| Ok (a : A)
| Raise (e : exn).

Arguments Ok {A} a.
Arguments Raise {A} e.

Definition bind {A B : Type} (m : result A) (k : A -> result B) : result B :=
  match m with
  | Ok a => k a
  | Raise e => Raise e
  end.

Declare Scope py_scope.
Delimit Scope py_scope with py.
Notation "x <- m ;; k" := (bind m (fun x => k))
  (at level 61, m at next level, right associativity) : py_scope.
Notation "' pat <- m ;; k" := (bind m (fun x => match x with pat => k end))
  (at level 61, pat pattern, m at next level, right associativity) : py_scope.

(** ** Python floats *)

Module PyFloat.

Inductive pyfloat : Type :=
| Fin (r : R)
| PInf
| NInf
| NaN.

Definition Rleb (a b : R) : bool := if Rle_dec a b then true else false.
Definition Rltb (a b : R) : bool := if Rlt_dec a b then true else false.

(** [x <= y] and [x < y]: false as soon as one side is NaN. *)
Definition fle (x y : pyfloat) : bool :=
  match x, y with
  | NaN, _ | _, NaN => false
  | NInf, _ => true
  | _, PInf => true
  | Fin a, Fin b => Rleb a b
  | _, _ => false
  end.

Definition flt (x y : pyfloat) : bool :=
  match x, y with
  | NaN, _ | _, NaN => false
  | NInf, NInf => false
  | PInf, PInf => false
  | NInf, _ => true
  | _, PInf => true
  | Fin a, Fin b => Rltb a b
  | _, _ => false
  end.

Definition fneg (x : pyfloat) : pyfloat :=
  match x with
  | Fin a => Fin (- a)
  | PInf => NInf
  | NInf => PInf
  | NaN => NaN
  end.

Definition fadd (x y : pyfloat) : pyfloat :=
  match x, y with
  | NaN, _ | _, NaN => NaN
  | PInf, NInf | NInf, PInf => NaN
  | PInf, _ | _, PInf => PInf
  | NInf, _ | _, NInf => NInf
  | Fin a, Fin b => Fin (a + b)
  end.

Definition fsub (x y : pyfloat) : pyfloat := fadd x (fneg y).

(** IEEE division, total: [x / 0] is an infinity or NaN. *)
Definition fdiv_ieee (x y : pyfloat) : pyfloat :=
  match x, y with
  | NaN, _ | _, NaN => NaN
  | Fin a, Fin b =>
      if Rltb 0 b || Rltb b 0 then Fin (a / b)
      else if Rltb 0 a then PInf else if Rltb a 0 then NInf else NaN
  | Fin _, _ => Fin 0
  | PInf, Fin b => if Rltb b 0 then NInf else PInf
  | NInf, Fin b => if Rltb b 0 then PInf else NInf
  | _, _ => NaN
  end.

(** Python's [x / y] on floats: ZeroDivisionError on a zero divisor,
    IEEE division otherwise. *)
Definition py_div (x y : pyfloat) : result pyfloat :=
  match y with
  | Fin b => if Rltb 0 b || Rltb b 0 then Ok (fdiv_ieee x y)
             else Raise ZeroDivisionError
  | _ => Ok (fdiv_ieee x y)
  end.

(** The largest finite double, [(2 ^ 53 - 1) * 2 ^ 971]. *)
Definition float_max : R := IZR (2 ^ 1024 - 2 ^ 971).

(** The square as IEEE multiplication gives it. *)
Definition fsquare (x : pyfloat) : pyfloat :=
  match x with
  | Fin a => Fin (a * a)
  | PInf | NInf => PInf
  | NaN => NaN
  end.

(** Whether the square of a value is within the doubles. *)
Definition square_fits (x : pyfloat) : bool :=
  match x with
  | Fin a => negb (Rltb float_max (a * a))
  | _ => true
  end.

(** [x ** 2]: CPython raises OverflowError when the power of a finite
    value is beyond the doubles; the infinities and NaN pass. *)
Definition py_pow2 (x : pyfloat) : result pyfloat :=
  match x with
  | Fin a =>
      if Rltb float_max (a * a) then Raise OverflowError else Ok (Fin (a * a))
  | PInf | NInf => Ok PInf
  | NaN => Ok NaN
  end.

(** IEEE square root: NaN below zero. *)
Definition fsqrt (x : pyfloat) : pyfloat :=
  match x with
  | Fin a => if Rltb a 0 then NaN else Fin (sqrt a)
  | PInf => PInf
  | NInf => NaN
  | NaN => NaN
  end.

(** [x ** 0.5].  C's pow gives +inf for both infinities.  A negative finite
    base gives a complex number in Python 3, on which the ordering
    comparisons that follow in the callers raise TypeError; the model raises
    it at once. *)
Definition py_pow_half (x : pyfloat) : result pyfloat :=
  match x with
  | Fin a => if Rltb a 0 then Raise TypeError else Ok (Fin (sqrt a))
  | PInf | NInf => Ok PInf
  | NaN => Ok NaN
  end.

(** The builtins [max(a, b)] and [min(a, b)]: the first argument is kept
    unless the second compares strictly greater (smaller). *)
Definition py_max (a b : pyfloat) : pyfloat := if flt a b then b else a.
Definition py_min (a b : pyfloat) : pyfloat := if flt b a then b else a.

(** [sum(xs)], starting from the integer 0. *)
Definition py_sum (xs : list pyfloat) : pyfloat := fold_left fadd xs (Fin 0).

(** An integer used where a float is expected. *)
Definition of_Z (z : Z) : pyfloat := Fin (IZR z).
Definition of_nat (n : nat) : pyfloat := Fin (INR n).

Definition is_finite (x : pyfloat) : bool :=
  match x with Fin _ => true | _ => false end.

(** Zero or more, [+inf], or NaN: what a sum of squares can be. *)
Definition nonneg (x : pyfloat) : Prop :=
  match x with
  | Fin r => (0 <= r)%R
  | PInf | NaN => True
  | NInf => False
  end.

(** [+inf] or NaN: a running total that a value which is not finite has
    entered. *)
Definition spoiled (x : pyfloat) : Prop := x = PInf \/ x = NaN.

(** [0 <= x <= 1] as a proposition on the value. *)
Definition in_unit_interval (x : pyfloat) : Prop :=
  exists r, x = Fin r /\ (0 <= r <= 1)%R.

End PyFloat.
Import PyFloat.

(** ** Data model ([gradient.py], dataclasses) *)

Record TrainingTask : Type := mkTrainingTask {
  task_id : string;
  model_id : string;
  dataset_cid : string;
  batch_start : Z;
  batch_end : Z;
  objective_hash : string;
  deadline : Z;
  reward : Z
}.

(** The [__eq__] a dataclass generates: field by field. *)
Definition task_eqb (a b : TrainingTask) : bool :=
  String.eqb (task_id a) (task_id b)
  && String.eqb (model_id a) (model_id b)
  && String.eqb (dataset_cid a) (dataset_cid b)
  && Z.eqb (batch_start a) (batch_start b)
  && Z.eqb (batch_end a) (batch_end b)
  && String.eqb (objective_hash a) (objective_hash b)
  && Z.eqb (deadline a) (deadline b)
  && Z.eqb (reward a) (reward b).

(** A dict is kept as its items in insertion order; keys are distinct. *)
Definition dict (V : Type) : Type := list (string * V).

Definition keys {V : Type} (d : dict V) : list string := map fst d.
Definition values {V : Type} (d : dict V) : list V := map snd d.

(** [d[k]]: KeyError when the key is missing. *)
Fixpoint getitem {V : Type} (d : dict V) (k : string) : result V :=
  match d with
  | [] => Raise (KeyError k)
  | (k', v) :: d' => if String.eqb k' k then Ok v else getitem d' k
  end.

(** [d[k] = v]: an existing key keeps its place, a new one goes last. *)
Fixpoint setitem {V : Type} (d : dict V) (k : string) (v : V) : dict V :=
  match d with
  | [] => [(k, v)]
  | (k', v') :: d' =>
      if String.eqb k' k then (k', v) :: d' else (k', v') :: setitem d' k v
  end.

Definition well_formed_dict {V : Type} (d : dict V) : Prop := NoDup (keys d).

Definition bytes : Type := list Byte.byte.

Record ComputeResult : Type := mkComputeResult {
  result_task_id : string;
  gradient_hash : string;
  quality_score : pyfloat;
  loss : pyfloat;
  metrics : dict pyfloat;
  proof : bytes
}.

(** ** TaskQueue ([gradient.py]) *)

Module Queue.

Record TaskQueue : Type := mkTaskQueue {
  rpc_endpoint : string;
  pending_tasks : list TrainingTask;
  active_task : option TrainingTask
}.

(** [TaskQueue(rpc_endpoint)] *)
Definition init (endpoint : string) : TaskQueue :=
  {| rpc_endpoint := endpoint; pending_tasks := []; active_task := None |}.

(** [list.remove(x)]: drops the first element equal to [x]; ValueError when
    there is none. *)
Fixpoint list_remove (x : TrainingTask) (l : list TrainingTask)
  : result (list TrainingTask) :=
  match l with
  | [] => Raise (ValueError "list.remove(x): x not in list")
  | y :: l' =>
      if task_eqb y x then Ok l'
      else (r <- list_remove x l' ;; Ok (y :: r))%py
  end.

(** [fetch_tasks]: hands out the pending list itself; the queue is left as
    it is. *)
Definition fetch_tasks (self : TaskQueue) : list TrainingTask * TaskQueue :=
  (pending_tasks self, self).

(** The [for task in self.pending_tasks] loop of [claim_task]: the first
    task of the list with the wanted id, if any. *)
Fixpoint find_task (id : string) (l : list TrainingTask) : option TrainingTask :=
  match l with
  | [] => None
  | task :: l' => if String.eqb (task_id task) id then Some task else find_task id l'
  end.

(** [claim_task]: at the first task with the id, records it as the active
    task, removes it from the pending list and returns it; None when the
    loop ends without a match. *)
Definition claim_task (self : TaskQueue) (id : string)
  : result (option TrainingTask * TaskQueue) :=
  match find_task id (pending_tasks self) with
  | Some task =>
      (rest <- list_remove task (pending_tasks self) ;;
       Ok (Some task,
           {| rpc_endpoint := rpc_endpoint self;
              pending_tasks := rest;
              active_task := Some task |}))%py
  | None => Ok (None, self)
  end.

(** [submit_result]: clears the active task and returns True. *)
Definition submit_result (self : TaskQueue) (res : ComputeResult)
  : bool * TaskQueue :=
  (true,
   {| rpc_endpoint := rpc_endpoint self;
      pending_tasks := pending_tasks self;
      active_task := None |}).

(** [add_task]: appends to the pending list. *)
Definition add_task (self : TaskQueue) (task : TrainingTask) : TaskQueue :=
  {| rpc_endpoint := rpc_endpoint self;
     pending_tasks := pending_tasks self ++ [task];
     active_task := active_task self |}.

End Queue.

(** ** hashlib *)

Definition hex_digit (n : N) : ascii :=
  if (n <? 10)%N then ascii_of_N (48 + n) else ascii_of_N (87 + n).

(** [bytes.hex()]: two lowercase digits per byte. *)
Fixpoint hex (bs : bytes) : string :=
  match bs with
  | [] => EmptyString
  | b :: bs' =>
      let n := Byte.to_N b in
      String (hex_digit (n / 16)) (String (hex_digit (n mod 16)) (hex bs'))
  end.

(** [str.encode()] on a string kept as its bytes. *)
Definition encode (s : string) : bytes := list_byte_of_string s.

(** A hash object is what it has been fed so far: the digest of a hash
    object is the digest of the concatenation of its updates. *)
Record hasher : Type := mkHasher { fed : bytes }.

Definition hasher_new : hasher := {| fed := [] |}.
Definition update (h : hasher) (data : bytes) : hasher := {| fed := fed h ++ data |}.

(** ** [models.py]: gradient hash and gradient quality *)

(** [sorted(names)]: ascending in the lexicographic order of strings. *)
Fixpoint insert_sorted (x : string) (l : list string) : list string :=
  match l with
  | [] => [x]
  | y :: l' => if String.leb x y then x :: y :: l' else y :: insert_sorted x l'
  end.

Definition sorted (l : list string) : list string := fold_right insert_sorted [] l.

(** The order [sorted] sorts by, as a relation. *)
Definition string_le (a b : string) : Prop := String.leb a b = true.

Section Models.

Variable tensor : Type.
(** [grad.norm().item()] *)
Variable norm_item : tensor -> pyfloat.
(** [grad.cpu().numpy().tobytes()] *)
Variable tobytes : tensor -> bytes.
(** [hashlib.sha256(data).digest()] *)
Variable sha256 : bytes -> bytes.

Definition hexdigest (h : hasher) : string := hex (sha256 (fed h)).

(** The loop of [hash_gradients] over the sorted names. *)
Fixpoint hash_loop (gradients : dict tensor) (names : list string) (h : hasher)
  : result hasher :=
  match names with
  | [] => Ok h
  | name :: rest =>
      (grad <- getitem gradients name ;;
       hash_loop gradients rest (update (update h (encode name)) (tobytes grad)))%py
  end.

Definition hash_gradients (gradients : dict tensor) : result string :=
  (h <- hash_loop gradients (sorted (keys gradients)) hasher_new ;;
   Ok (hexdigest h))%py.

(** What the loop feeds to the hash object for one item of the dict. *)
Definition item_bytes (item : string * tensor) : bytes :=
  encode (fst item) ++ tobytes (snd item).

(** The loop [total_norm += grad.norm().item() ** 2]. *)
Fixpoint accumulate_norm (grads : list tensor) (total_norm : pyfloat)
  : result pyfloat :=
  match grads with
  | [] => Ok total_norm
  | grad :: rest =>
      (square <- py_pow2 (norm_item grad) ;;
       accumulate_norm rest (fadd total_norm square))%py
  end.

Definition compute_gradient_quality
    (gradients : dict tensor) (loss : pyfloat) (prev_loss : option pyfloat)
  : result pyfloat :=
  (let scores := [] in
   total_norm <- accumulate_norm (values gradients) (Fin 0) ;;
   total_norm <- py_pow_half total_norm ;;
   magnitude_score <-
     (if fle (Fin 0.1) total_norm && fle total_norm (Fin 10) then Ok (Fin 1)
      else if flt total_norm (Fin 0.1) then py_div total_norm (Fin 0.1)
      else (q <- py_div (fsub total_norm (Fin 10)) (Fin 100) ;;
            Ok (py_max (Fin 0) (fsub (Fin 1) q)))) ;;
   let scores := scores ++ [magnitude_score] in
   scores <-
     (match prev_loss with
      | Some p =>
          if flt (Fin 0) p then
            (improvement <- py_div (fsub p loss) p ;;
             let improvement_score :=
               py_min (Fin 1) (py_max (Fin 0) (fadd improvement (Fin 0.5))) in
             Ok (scores ++ [improvement_score]))
          else Ok scores
      | None => Ok scores
      end) ;;
   py_div (py_sum scores) (of_nat (List.length scores)))%py.

(** *** The scoring rule as the design document words it *)

(** The sum of the squared norms, taken in the order of the dict. *)
Definition sum_of_squared_norms (gradients : dict tensor) : pyfloat :=
  fold_left (fun acc grad => fadd acc (fsquare (norm_item grad)))
            (values gradients) (Fin 0).

(** Whether the square of every norm is within the doubles. *)
Definition squares_fit (gradients : dict tensor) : bool :=
  forallb (fun grad => square_fits (norm_item grad)) (values gradients).

Definition spec_total_norm (gradients : dict tensor) : pyfloat :=
  fsqrt (sum_of_squared_norms gradients).

(** The larger and the smaller of two values, by the order [<=]. *)
Definition spec_max (a b : pyfloat) : pyfloat := if fle a b then b else a.
Definition spec_min (a b : pyfloat) : pyfloat := if fle a b then a else b.

Definition spec_magnitude (total_norm : pyfloat) : pyfloat :=
  if fle (Fin 0.1) total_norm && fle total_norm (Fin 10) then Fin 1
  else if flt total_norm (Fin 0.1) then fdiv_ieee total_norm (Fin 0.1)
  else spec_max (Fin 0)
         (fsub (Fin 1) (fdiv_ieee (fsub total_norm (Fin 10)) (Fin 100))).

Definition spec_improvement (loss prev_loss : pyfloat) : pyfloat :=
  spec_min (Fin 1)
    (spec_max (Fin 0)
       (fadd (fdiv_ieee (fsub prev_loss loss) prev_loss) (Fin 0.5))).

Definition spec_sub_scores
    (gradients : dict tensor) (loss : pyfloat) (prev_loss : option pyfloat)
  : list pyfloat :=
  spec_magnitude (spec_total_norm gradients)
  :: match prev_loss with
     | Some p => if flt (Fin 0) p then [spec_improvement loss p] else []
     | None => []
     end.

Definition arithmetic_mean (xs : list pyfloat) : pyfloat :=
  fdiv_ieee (fold_right fadd (Fin 0) xs) (of_nat (List.length xs)).

Definition spec_quality
    (gradients : dict tensor) (loss : pyfloat) (prev_loss : option pyfloat)
  : pyfloat :=
  arithmetic_mean (spec_sub_scores gradients loss prev_loss).

End Models.

(** ** GradientComputer ([gradient.py]) *)

Inductive TaskType : Type :=
| CLASSIFICATION
| REGRESSION
| GENERATION
| REINFORCEMENT.

(** [task_type.value] *)
Definition TaskType_value (t : TaskType) : string :=
  match t with
  | CLASSIFICATION => "classification"
  | REGRESSION => "regression"
  | GENERATION => "generation"
  | REINFORCEMENT => "reinforcement"
  end.

Record ModelConfig : Type := mkModelConfig {
  config_model_id : string;
  architecture : string;
  task_type : TaskType;
  domain : string
}.

(** The two loss modules [_get_criterion] chooses between. *)
Inductive criterion : Type :=
| CrossEntropyLoss
| MSELoss.

Section Computer.

Variable tensor : Type.
Variable model : Type.

(** torch and hashlib, as in section Models. *)
Variable norm_item : tensor -> pyfloat.
Variable tobytes : tensor -> bytes.
Variable sha256 : bytes -> bytes.
(** [t[start:end]] *)
Variable slice : tensor -> Z -> Z -> tensor.
(** [(outputs.argmax(dim=1) == targets).sum().item()] and [targets.size(0)] *)
Variable count_correct : tensor -> tensor -> Z.
Variable size0 : tensor -> Z.
(** [((outputs - targets) ** 2).mean().item()] and
    [(outputs - targets).abs().mean().item()] *)
Variable mse_item : tensor -> tensor -> pyfloat.
Variable mae_item : tensor -> tensor -> pyfloat.
(** [str(proof_data).encode()] for the dict built in [_generate_proof],
    from its five values in order. *)
Variable repr_proof_data : string -> string -> pyfloat -> dict pyfloat -> Z -> bytes.
(** The files of the registry directory: the config and model stored for
    an id, None when either file is missing. *)
Variable stored : string -> option (ModelConfig * model).

(** [ModelRegistry]: the two in-memory dicts. *)
Record ModelRegistry : Type := mkModelRegistry {
  models : dict model;
  configs : dict ModelConfig
}.

(** [load_model]: the cached model if there is one; otherwise the stored
    one, which is then cached with its config; None when nothing is stored.
    Reading the files is taken to succeed: the exceptions of a stored
    config that cannot be read or built (json, a missing field,
    [TaskType(...)], an unknown architecture, [load_state_dict]) are not
    modelled, and what is stated below about a model that is loaded is
    stated for a [load_model] that returns. *)
Definition load_model (self : ModelRegistry) (id : string)
  : option model * ModelRegistry :=
  match getitem (models self) id with
  | Ok m => (Some m, self)
  | Raise _ =>
      match stored id with
      | None => (None, self)
      | Some (config, m) =>
          (Some m,
           {| models := setitem (models self) id m;
              configs := setitem (configs self) id config |})
      end
  end.

(** [self.configs.get(model_id)] *)
Definition get_config (self : ModelRegistry) (id : string) : option ModelConfig :=
  match getitem (configs self) id with
  | Ok c => Some c
  | Raise _ => None
  end.

(** [GradientComputer]; the torch device has no part in what follows and
    is left out. *)
Record GradientComputer : Type := mkGradientComputer {
  registry : ModelRegistry;
  current_task : option TrainingTask;
  prev_loss : option pyfloat
}.

(** [GradientComputer(registry, device)] *)
Definition init (reg : ModelRegistry) : GradientComputer :=
  {| registry := reg; current_task := None; prev_loss := None |}.

(** What one call of [compute_gradients] observes of the outside: the
    clock, and the forward and backward pass of the model executor (in
    train mode the pass is not a function of its inputs alone, so each call
    has its own). *)
Record execution : Type := mkExecution {
  (** [time.time()] on entry *)
  start_time : pyfloat;
  (** [model(batch_data)] *)
  forward : model -> tensor -> tensor;
  (** [criterion(outputs, batch_targets)], read with [loss.item()] *)
  loss_item : criterion -> tensor -> tensor -> pyfloat;
  (** [model.named_parameters()] after [loss.backward()], each with its
      [param.grad] *)
  named_parameters : model -> list (string * option tensor);
  (** [time.time()] when [compute_time] is taken *)
  end_time : pyfloat;
  (** [int(time.time())] in [_generate_proof] *)
  proof_time : Z
}.

Definition _get_criterion (self : GradientComputer) (id : string) : criterion :=
  match get_config (registry self) id with
  | None => CrossEntropyLoss
  | Some config =>
      let task_type := TaskType_value (task_type config) in
      if String.eqb task_type "classification" then CrossEntropyLoss
      else if String.eqb task_type "regression" then MSELoss
      else CrossEntropyLoss
  end.

Definition _compute_metrics
    (self : GradientComputer) (outputs targets : tensor) (id : string)
  : result (dict pyfloat) :=
  (let metrics := [] in
   let task_type :=
     match get_config (registry self) id with
     | Some config => TaskType_value (task_type config)
     | None => "classification"%string
     end in
   if String.eqb task_type "classification" then
     let correct := count_correct outputs targets in
     let total := size0 targets in
     accuracy <- py_div (of_Z correct) (of_Z total) ;;
     Ok (setitem metrics "accuracy" accuracy)
   else if String.eqb task_type "regression" then
     let mse := mse_item outputs targets in
     let mae := mae_item outputs targets in
     Ok (setitem (setitem metrics "mse" mse) "mae" mae)
   else Ok metrics)%py.

(** [_generate_proof]; [now] is the [int(time.time())] it reads. *)
Definition _generate_proof
    (task : TrainingTask) (gradient_hash : string) (quality_score : pyfloat)
    (metrics : dict pyfloat) (now : Z) : bytes :=
  sha256 (repr_proof_data (task_id task) gradient_hash quality_score metrics now).

(** The loop collecting the parameters whose gradient is not None. *)
Fixpoint collect_gradients
    (params : list (string * option tensor)) (gradients : dict tensor)
  : dict tensor :=
  match params with
  | [] => gradients
  | (name, Some grad) :: rest => collect_gradients rest (setitem gradients name grad)
  | (name, None) :: rest => collect_gradients rest gradients
  end.

(** [compute_gradients].  The moves to the device, [model.train()] and
    [model.zero_grad()] change nothing the result depends on and are left
    out, as is the unused [learning_rate]; the torch operations are taken to
    return.  A call that raises leaves no result and no computer. *)
Definition compute_gradients
    (self : GradientComputer) (task : TrainingTask) (data targets : tensor)
    (run : execution)
  : result (ComputeResult * GradientComputer) :=
  (let '(loaded, reg) := load_model (registry self) (model_id task) in
   let self :=
     {| registry := reg;
        current_task := current_task self;
        prev_loss := prev_loss self |} in
   match loaded with
   | None => Raise (ValueError ("Model not found: " ++ model_id task))
   | Some model =>
       let batch_data := slice data (batch_start task) (batch_end task) in
       let batch_targets := slice targets (batch_start task) (batch_end task) in
       let outputs := forward run model batch_data in
       let criterion := _get_criterion self (model_id task) in
       let loss := loss_item run criterion outputs batch_targets in
       let gradients := collect_gradients (named_parameters run model) [] in
       quality_score <-
         compute_gradient_quality norm_item gradients loss (prev_loss self) ;;
       gradient_hash <- hash_gradients tobytes sha256 gradients ;;
       metrics <- _compute_metrics self outputs batch_targets (model_id task) ;;
       let metrics := setitem metrics "loss" loss in
       let metrics :=
         setitem metrics "compute_time" (fsub (end_time run) (start_time run)) in
       let proof :=
         _generate_proof task gradient_hash quality_score metrics (proof_time run) in
       let self :=
         {| registry := registry self;
            current_task := Some task;
            prev_loss := Some loss |} in
       Ok ({| result_task_id := task_id task;
              gradient_hash := gradient_hash;
              quality_score := quality_score;
              loss := loss;
              metrics := metrics;
              proof := proof |},
           self)
   end)%py.

(** [verify_result]; [now] is the clock reading of the regenerated
    proof. *)
Definition verify_result
    (self : GradientComputer) (res : ComputeResult) (task : TrainingTask)
    (now : Z) : bool :=
  if negb (String.eqb (result_task_id res) (task_id task)) then false
  else if negb (fle (Fin 0) (quality_score res) && fle (quality_score res) (Fin 1))
  then false
  else
    let expected_proof :=
      _generate_proof task (gradient_hash res) (quality_score res)
                      (metrics res) now in
    true.

(** The computer as the call sees it once the model is loaded. *)
Definition loaded_computer
    (self : GradientComputer) (reg : ModelRegistry)
  : GradientComputer :=
  {| registry := reg;
     current_task := current_task self;
     prev_loss := prev_loss self |}.

(** The loss a call reads from the executor. *)
Definition observed_loss
    (self : GradientComputer) (reg : ModelRegistry)
    (task : TrainingTask) (data targets : tensor)
    (run : execution) (m : model) : pyfloat :=
  let batch_data := slice data (batch_start task) (batch_end task) in
  let batch_targets := slice targets (batch_start task) (batch_end task) in
  loss_item run
    (_get_criterion (loaded_computer self reg) (model_id task))
    (forward run m batch_data) batch_targets.

(** *** The computer contract as the design document words it *)

(** Verification compares the proof: a result with the right task id and
    a score between 0 and 1 whose proof is not the regenerated commitment
    is refused. *)
Definition proof_is_compared
    (self : GradientComputer) (res : ComputeResult) (task : TrainingTask)
    (now : Z) : Prop :=
  result_task_id res = task_id task ->
  in_unit_interval (quality_score res) ->
  proof res
  <> _generate_proof task (gradient_hash res) (quality_score res)
                     (metrics res) now ->
  verify_result self res task now = false.

(** A result for [task] that passes both guards of [verify_result] and
    whose proof is one byte longer than the commitment regenerated at the
    clock reading [now]. *)
Definition forged_result (task : TrainingTask) (now : Z) : ComputeResult :=
  {| result_task_id := task_id task;
     gradient_hash := "00";
     quality_score := Fin 0.5;
     loss := Fin 1;
     metrics := [];
     proof := Byte.x00 :: _generate_proof task "00" (Fin 0.5) [] now |}.

(** A loss that is not finite is reported as a failure: whatever comes
    back as a result has a finite loss. *)
Definition non_finite_loss_is_reported
    (self : GradientComputer) (task : TrainingTask) (data targets : tensor)
    (run : execution) : Prop :=
  forall res self',
    compute_gradients self task data targets run = Ok (res, self') ->
    is_finite (loss res) = true.

End Computer.

(** ** Concrete values used in the examples *)

Module Examples.

Definition task_a : TrainingTask :=
  {| task_id := "task_001"; model_id := "test_model"; dataset_cid := "ipfs://test";
     batch_start := 0; batch_end := 32; objective_hash := "abc123";
     deadline := 50; reward := 1000 |}.

Definition task_b : TrainingTask :=
  {| task_id := "task_002"; model_id := "test_model"; dataset_cid := "ipfs://test";
     batch_start := 32; batch_end := 64; objective_hash := "abc123";
     deadline := 999999; reward := 1000 |}.

(** Two tasks added in turn to a new queue. *)
Definition queue_ab : Queue.TaskQueue :=
  Queue.add_task (Queue.add_task (Queue.init "http://localhost:8545") task_a) task_b.

(** The same task added twice. *)
Definition queue_aa : Queue.TaskQueue :=
  Queue.add_task (Queue.add_task (Queue.init "http://localhost:8545") task_a) task_a.

(** A clock reading after the deadline of [task_a]. *)
Definition late : Z := 100.

(** [queue_ab] after a claim of [task_a], and a result for that task. *)
Definition queue_claimed_a : Queue.TaskQueue :=
  {| Queue.rpc_endpoint := "http://localhost:8545";
     Queue.pending_tasks := [task_b];
     Queue.active_task := Some task_a |}.

Definition result_a : ComputeResult :=
  {| result_task_id := "task_001";
     gradient_hash := "00";
     quality_score := Fin 1;
     loss := Fin 2;
     metrics := [("loss"%string, Fin 2)];
     proof := [Byte.x2a] |}.

(** Stand-ins for the collaborators, to run the definitions on: a tensor is
    the list of its elements, its bytes are one byte per element, and the
    digest is the input itself. *)
Definition tensor : Type := list pyfloat.

Definition norm_item (t : tensor) : pyfloat :=
  fsqrt (fold_right (fun x acc => fadd (fsquare x) acc) (Fin 0) t).

Definition tobytes (t : tensor) : bytes := map (fun _ => Byte.x01) t.

Definition sha256 (data : bytes) : bytes := data.

Definition gradients_wb : dict tensor :=
  [("layer1.weight"%string, [Fin 3; Fin 4]); ("layer1.bias"%string, [Fin 0])].

Definition gradients_bw : dict tensor :=
  [("layer1.bias"%string, [Fin 0]); ("layer1.weight"%string, [Fin 3; Fin 4])].

(** A model is known by a number; nothing is stored on disk. *)
Definition model : Type := nat.

Definition stored (id : string) : option (ModelConfig * model) := None.

Definition slice (t : tensor) (start stop : Z) : tensor :=
  firstn (Z.to_nat (stop - start)) (skipn (Z.to_nat start) t).

Definition count_correct (outputs targets : tensor) : Z := 0.

Definition size0 (t : tensor) : Z := Z.of_nat (List.length t).

Definition mse_item (outputs targets : tensor) : pyfloat := Fin 0.
Definition mae_item (outputs targets : tensor) : pyfloat := Fin 0.

Definition repr_proof_data
    (id hash : string) (score : pyfloat) (metrics : dict pyfloat) (now : Z)
  : bytes :=
  encode id ++ encode hash.

(** A registry holding one classification model, and a new computer on
    it. *)
Definition test_registry : ModelRegistry model :=
  {| models := [("test_model"%string, 7%nat)];
     configs := [("test_model"%string,
                  {| config_model_id := "test_model";
                     architecture := "mlp";
                     task_type := CLASSIFICATION;
                     domain := "test" |})] |}.

Definition test_computer : GradientComputer model := init test_registry.

Definition test_data : tensor := repeat (Fin 1) 100.
Definition test_targets : tensor := repeat (Fin 0) 100.

(** A run of the executor whose loss is [l]. *)
Definition run_with_loss (l : pyfloat) : execution tensor model :=
  {| start_time := Fin 10;
     forward := fun _ batch => batch;
     loss_item := fun _ _ _ => l;
     named_parameters := fun _ =>
       [("layer1.weight"%string, Some [Fin 3; Fin 4]);
        ("layer1.bias"%string, None)];
     end_time := Fin 11;
     proof_time := 1700000000 |}.

(** The clock reading of a verification. *)
Definition verify_time : Z := 1700000000.

End Examples.

(** ** The queue contract as the design document words it *)

Module Design.
Import Queue.

(** Expiry: a pending task whose deadline is before [now] is absent from
    what [fetch_tasks] returns, and a claim on its id returns None. *)
Definition expiry_on_access (now : Z) (q : TaskQueue) (t : TrainingTask) : Prop :=
  In t (pending_tasks q) ->
  (deadline t < now)%Z ->
  ~ In t (fst (fetch_tasks q))
  /\ exists q', claim_task q (task_id t) = Ok (None, q').

(** Submit guard: a submit is accepted only for the task that is claimed,
    and a second submit of the same result is refused. *)
Definition submit_guard (q : TaskQueue) (r : ComputeResult) : Prop :=
  (fst (submit_result q r) = true ->
   exists t, active_task q = Some t /\ task_id t = result_task_id r)
  /\ (fst (submit_result q r) = true ->
      fst (submit_result (snd (submit_result q r)) r) = false).

(** Claim exclusivity: after a claim of an id has succeeded, the next claim
    of that id returns None. *)
Definition claim_exclusive (q : TaskQueue) (id : string) : Prop :=
  forall t q1,
    claim_task q id = Ok (Some t, q1) ->
    exists q2, claim_task q1 id = Ok (None, q2).

End Design.

(** ** The rest of [models.py], [gradient.py], [server.py] and [main.py] *)

(** [del d[k]]: KeyError when the key is missing. *)
Fixpoint delitem {V : Type} (d : dict V) (k : string) : result (dict V) :=
  match d with
  | [] => Raise (KeyError k)
  | (k', v) :: d' =>
      if String.eqb k' k then Ok d'
      else (r <- delitem d' k ;; Ok ((k', v) :: r))%py
  end.

(** [k in d] *)
Definition contains {V : Type} (d : dict V) (k : string) : bool :=
  existsb (fun item => String.eqb (fst item) k) d.

(** A pending list without its first task of the id: what a claim of the
    id leaves pending. *)
Fixpoint without_first (id : string) (l : list TrainingTask) : list TrainingTask :=
  match l with
  | [] => []
  | task :: l' =>
      if String.eqb (task_id task) id then l' else task :: without_first id l'
  end.

(** *** [ModelRegistry.register_model] ([models.py]) *)

Section Registry.

Variable model : Type.



End Registry.

(** Whether [_compute_metrics] takes its classification branch for a model:
    the config says so, or there is no config. *)
Definition accuracy_is_computed
    {model : Type} (reg : ModelRegistry model) (id : string) : bool :=
  match get_config reg id with
  | Some config => String.eqb (TaskType_value (task_type config)) "classification"
  | None => true
  end.

(** The metrics [_compute_metrics] produces, by the task type of the
    config: the names of its three branches. *)
Definition metric_names
    {model : Type} (reg : ModelRegistry model) (id : string) : list string :=
  match get_config reg id with
  | None => ["accuracy"%string]
  | Some config =>
      match task_type config with
      | CLASSIFICATION => ["accuracy"%string]
      | REGRESSION => ["mse"%string; "mae"%string]
      | GENERATION | REINFORCEMENT => []
      end
  end.

(** The sixteen characters [bytes.hex()] writes with. *)
Definition hex_chars : list ascii := list_ascii_of_string "0123456789abcdef".

Definition is_lower_hex (s : string) : Prop :=
  Forall (fun c => In c hex_chars) (list_ascii_of_string s).

(** *** [DatasetLoader.get_batch] ([gradient.py]) *)

Module Dataset.

(** A bound of a slice over [n] rows: a negative bound counts from the
    end, and every bound is brought into [0, n]. *)
Definition clamp_index (n i : Z) : Z :=
  if (i <? 0)%Z then Z.max (i + n) 0 else Z.min i n.

(** [rows[start:stop]] on the first dimension of a tensor, kept as the
    list of its rows. *)
Definition py_slice {A : Type} (rows : list A) (start stop : Z) : list A :=
  let n := Z.of_nat (List.length rows) in
  let lo := clamp_index n start in
  let hi := clamp_index n stop in
  firstn (Z.to_nat (hi - lo)) (skipn (Z.to_nat lo) rows).

(** [get_batch] *)
Definition get_batch {A B : Type}
    (data : list A) (targets : list B) (batch_start batch_end : Z)
  : list A * list B :=
  (py_slice data batch_start batch_end, py_slice targets batch_start batch_end).

End Dataset.

(** *** [ModelServer] ([main.py]) *)

Module ModelServer.

(** The value kept for a loaded model. *)
Record loaded : Type := mkLoaded {
  weights_cid : string;
  loaded_at : pyfloat
}.

Record ModelServer : Type := mkModelServer {
  loaded_models : dict loaded
}.

(** [ModelServer()] *)
Definition init : ModelServer := {| loaded_models := [] |}.

(** [load_model]; [now] is the [time.time()] it reads. *)
Definition load_model (self : ModelServer) (id cid : string) (now : pyfloat)
  : bool * ModelServer :=
  (true,
   {| loaded_models :=
        setitem (loaded_models self) id {| weights_cid := cid; loaded_at := now |} |}).

(** [unload_model] *)
Definition unload_model (self : ModelServer) (id : string)
  : result (bool * ModelServer) :=
  (if contains (loaded_models self) id then
     rest <- delitem (loaded_models self) id ;;
     Ok (true, {| loaded_models := rest |})
   else Ok (false, self))%py.

(** [run_inference]: the simulated answer, a dict with the one item
    [result: simulated], kept here with a string value. *)
Definition run_inference (self : ModelServer) (id : string) : result (dict string) :=
  if negb (contains (loaded_models self) id)
  then Raise (ValueError ("Model " ++ id ++ " not loaded"))
  else Ok [("result"%string, "simulated"%string)].

End ModelServer.

(** *** The task endpoints of [server.py] *)

Module Server.
Import Queue.

(** What an endpoint gives back: a body, an HTTPException, or an exception
    of the code below it that nothing catches. *)
Inductive http (A : Type) : Type :=
| Response (body : A)
| HTTPException (status_code : Z) (detail : string)
| Uncaught (e : exn).

Arguments Response {A} body.
Arguments HTTPException {A} status_code detail.
Arguments Uncaught {A} e.

(** [POST /tasks/{task_id}/claim]; the global [task_queue] is None until
    the startup hook has run. *)
Definition claim_task_endpoint (task_queue : option TaskQueue) (id : string)
  : http (dict string) * option TaskQueue :=
  match task_queue with
  | None => (HTTPException 500 "Task queue not initialized", task_queue)
  | Some queue =>
      match claim_task queue id with
      | Raise e => (Uncaught e, task_queue)
      | Ok (None, queue') =>
          (HTTPException 404 ("Task not found: " ++ id), Some queue')
      | Ok (Some task, queue') =>
          (Response [("status"%string, "claimed"%string); ("task_id"%string, id)],
           Some queue')
      end
  end.

(** One item of [GET /tasks]: five of the eight fields of a task. *)
Record task_summary : Type := mkTaskSummary {
  summary_task_id : string;
  summary_model_id : string;
  summary_batch_start : Z;
  summary_batch_end : Z;
  summary_reward : Z
}.

(** [GET /tasks] *)
Definition get_pending_tasks (task_queue : option TaskQueue)
  : http (list task_summary) :=
  match task_queue with
  | None => HTTPException 500 "Task queue not initialized"
  | Some queue =>
      Response
        (map (fun t =>
                {| summary_task_id := task_id t;
                   summary_model_id := model_id t;
                   summary_batch_start := batch_start t;
                   summary_batch_end := batch_end t;
                   summary_reward := reward t |})
             (pending_tasks queue))
  end.

End Server.

(** *** More concrete values *)

Module MoreExamples.

(** A tensor known by its norm alone. *)
Definition norm_of (r : R) : pyfloat := Fin r.

Definition one_tensor (r : R) : dict R := [("layer1.weight"%string, r)].

(** A task whose range starts beyond the 100 rows of the test data. *)
Definition task_beyond : TrainingTask :=
  {| task_id := "task_003"; model_id := "test_model"; dataset_cid := "ipfs://test";
     batch_start := 200; batch_end := 232; objective_hash := "abc123";
     deadline := 999999; reward := 1000 |}.

(** A task for a model nobody registered. *)
Definition task_unknown_model : TrainingTask :=
  {| task_id := "task_004"; model_id := "no_such_model"; dataset_cid := "ipfs://test";
     batch_start := 0; batch_end := 32; objective_hash := "abc123";
     deadline := 999999; reward := 1000 |}.

(** A digest of 32 bytes, whatever the data. *)
Definition digest32 (data : bytes) : bytes := repeat Byte.x00 32.

End MoreExamples.

(** * Properties *)

Unset Implicit Arguments.

(** ** TaskQueue *)

Module QueueFacts.
Import Queue.

Lemma task_eqb_eq (a b : TrainingTask) : task_eqb a b = true <-> a = b.
Proof.
  unfold task_eqb. split.
  - intros H.
    repeat (apply andb_prop in H; destruct H as [H ?]).
    repeat match goal with
           | E : String.eqb _ _ = true |- _ => apply String.eqb_eq in E
           | E : Z.eqb _ _ = true |- _ => apply Z.eqb_eq in E
           end.
    destruct a, b; simpl in *; congruence.
  - intros ->. rewrite !String.eqb_refl, !Z.eqb_refl. reflexivity.
Qed.

Lemma task_eqb_refl (a : TrainingTask) : task_eqb a a = true.
Proof. apply task_eqb_eq. reflexivity. Qed.

(** The loop stops at the first task with the id: the tasks before it have
    another id. *)
Lemma find_task_Some (id : string) (l : list TrainingTask) (t : TrainingTask) :
  find_task id l = Some t ->
  task_id t = id /\
  exists l1 l2, l = l1 ++ t :: l2 /\ Forall (fun u => task_id u <> id) l1.
Proof.
  induction l as [|u l IH]; simpl; [discriminate|].
  destruct (String.eqb (task_id u) id) eqn:E.
  - intros [= <-]. apply String.eqb_eq in E. split; [exact E|].
    exists [], l. split; [reflexivity | constructor].
  - intros H. destruct (IH H) as [Hid (l1 & l2 & -> & Hall)].
    split; [exact Hid|]. exists (u :: l1), l2. split; [reflexivity|].
    constructor; [|exact Hall]. apply String.eqb_neq. exact E.
Qed.

Lemma find_task_None (id : string) (l : list TrainingTask) :
  find_task id l = None <-> (forall u, In u l -> task_id u <> id).
Proof.
  induction l as [|u l IH]; simpl.
  - split; [intros _ ? []|reflexivity].
  - destruct (String.eqb (task_id u) id) eqn:E.
    + split; [discriminate|]. intros H. apply String.eqb_eq in E.
      exfalso. exact (H u (or_introl eq_refl) E).
    + apply String.eqb_neq in E. rewrite IH. split.
      * intros H v [<-|Hv]; [exact E | exact (H v Hv)].
      * intros H v Hv. apply H. right. exact Hv.
Qed.

Lemma find_task_In (id : string) (l : list TrainingTask) (t : TrainingTask) :
  In t l -> task_id t = id -> exists t', find_task id l = Some t'.
Proof.
  intros Hin Hid. destruct (find_task id l) as [t'|] eqn:E; [eauto|].
  exfalso. exact (proj1 (find_task_None id l) E t Hin Hid).
Qed.

(** [remove] takes out the occurrence the loop stopped at. *)
Lemma list_remove_first (id : string) (t : TrainingTask) (l1 l2 : list TrainingTask) :
  task_id t = id ->
  Forall (fun u => task_id u <> id) l1 ->
  list_remove t (l1 ++ t :: l2) = Ok (l1 ++ l2).
Proof.
  intros Hid Hall. induction Hall as [|u l1 Hu Hall IH]; simpl.
  - rewrite task_eqb_refl. reflexivity.
  - destruct (task_eqb u t) eqn:E.
    + apply task_eqb_eq in E. subst u. contradiction.
    + rewrite IH. reflexivity.
Qed.

(** What a claim does, in one statement: nothing when no pending task has
    the id; otherwise the first such task leaves the pending list and
    becomes the active task. *)
Lemma claim_task_cases (q : TaskQueue) (id : string) :
  (find_task id (pending_tasks q) = None /\ claim_task q id = Ok (None, q))
  \/ exists t l1 l2,
       find_task id (pending_tasks q) = Some t
       /\ task_id t = id
       /\ pending_tasks q = l1 ++ t :: l2
       /\ Forall (fun u => task_id u <> id) l1
       /\ claim_task q id =
            Ok (Some t, {| rpc_endpoint := rpc_endpoint q;
                           pending_tasks := l1 ++ l2;
                           active_task := Some t |}).
Proof.
  unfold claim_task. destruct (find_task id (pending_tasks q)) as [t|] eqn:E.
  - right. destruct (find_task_Some _ _ _ E) as [Hid (l1 & l2 & Hl & Hall)].
    exists t, l1, l2. repeat split; try assumption.
    rewrite Hl, (@list_remove_first id t l1 l2 Hid Hall). reflexivity.
  - left. split; reflexivity.
Qed.

End QueueFacts.

Module QueueProperties.
Import Queue QueueFacts Design Examples.

(** C2, as stated, fails: [task_a] is pending in [queue_ab] with its
    deadline before the clock reading [late], and the expiry rule does not
    hold for it: [fetch_tasks] returns it and a claim on its id returns
    it. *)
Lemma expired_task_still_served :
  ~ expiry_on_access late queue_ab task_a
  /\ (deadline task_a < late)%Z
  /\ In task_a (fst (fetch_tasks queue_ab))
  /\ claim_task queue_ab (task_id task_a) = Ok (Some task_a, queue_claimed_a).
Proof.
  assert (Hin : In task_a (pending_tasks queue_ab)) by (left; reflexivity).
  split; [|split; [reflexivity | split; [exact Hin | reflexivity]]].
  intros H. destruct (H Hin eq_refl) as [Habsent _].
  apply Habsent. exact Hin.
Qed.

(** C2, amended: the queue never reads a deadline.  Whatever the clock says,
    a pending task is in what [fetch_tasks] returns, [fetch_tasks] leaves the
    queue as it is, and a claim on the id of a pending task returns a task
    with that id. *)
Theorem pending_task_served_whatever_deadline
    (now : Z) (q : TaskQueue) (t : TrainingTask) :
  In t (pending_tasks q) ->
  (deadline t < now)%Z ->
  In t (fst (fetch_tasks q))
  /\ snd (fetch_tasks q) = q
  /\ exists t' q', claim_task q (task_id t) = Ok (Some t', q')
                   /\ task_id t' = task_id t.
Proof.
  intros Hin _. split; [exact Hin|]. split; [reflexivity|].
  destruct (claim_task_cases q (task_id t)) as [[Hnone _]|(t' & l1 & l2 & _ & Hid & _ & _ & Hc)].
  - exfalso. exact (proj1 (find_task_None _ _) Hnone t Hin eq_refl).
  - eauto.
Qed.

Lemma pending_task_served_whatever_deadline_witness :
  In task_a (pending_tasks queue_ab)
  /\ (deadline task_a < late)%Z
  /\ In task_a (fst (fetch_tasks queue_ab))
  /\ snd (fetch_tasks queue_ab) = queue_ab
  /\ exists t' q', claim_task queue_ab (task_id task_a) = Ok (Some t', q')
                   /\ task_id t' = task_id task_a.
Proof.
  assert (Hin : In task_a (pending_tasks queue_ab)) by (simpl; left; reflexivity).
  assert (Hlate : (deadline task_a < late)%Z) by reflexivity.
  split; [exact Hin|]. split; [exact Hlate|].
  exact (pending_task_served_whatever_deadline late queue_ab task_a Hin Hlate).
Defined.

(** C3, as stated, fails: [task_a] is claimed and a result for it is
    submitted; the guard asks the second submit of that result to be
    refused, and it is accepted. *)
Lemma second_submit_accepted :
  ~ submit_guard queue_claimed_a result_a
  /\ fst (submit_result queue_claimed_a result_a) = true
  /\ fst (submit_result (snd (submit_result queue_claimed_a result_a)) result_a)
     = true.
Proof.
  split; [|split; reflexivity].
  intros [_ Hsecond]. specialize (Hsecond eq_refl). discriminate Hsecond.
Qed.

(** C3, amended: [submit_result] accepts every submit.  It returns True and
    clears the active task in every state of the queue, leaves the pending
    list alone, and so a second submit of the same result returns True as
    well. *)
Theorem submit_result_always_accepts (q : TaskQueue) (r : ComputeResult) :
  fst (submit_result q r) = true
  /\ active_task (snd (submit_result q r)) = None
  /\ pending_tasks (snd (submit_result q r)) = pending_tasks q
  /\ fst (submit_result (snd (submit_result q r)) r) = true.
Proof. repeat split. Qed.

(** Task ids are unique: two pending tasks with the same id are the same
    task. *)
Lemma unique_id (l : list TrainingTask) (a b : TrainingTask) :
  NoDup (map task_id l) ->
  In a l -> In b l -> task_id a = task_id b -> a = b.
Proof.
  induction l as [|u l IH]; simpl; [contradiction|].
  intros Hnodup Ha Hb Hid. inversion Hnodup as [|? ? Hnot Hrest]; subst.
  destruct Ha as [->|Ha], Hb as [->|Hb].
  - reflexivity.
  - exfalso. apply Hnot. rewrite Hid. apply in_map. exact Hb.
  - exfalso. apply Hnot. rewrite <- Hid. apply in_map. exact Ha.
  - exact (IH Hrest Ha Hb Hid).
Qed.

(** C7: task ids being unique, as the data model has them, a claim returns
    the pending task with the id, takes it out of the pending tasks and
    records it as active; it returns None and changes nothing when no
    pending task has the id; and so, after a claim of an id has succeeded,
    the next claim of that id returns None. *)
Theorem claim_task_exclusive (q : TaskQueue) (id : string) :
  NoDup (map task_id (pending_tasks q)) ->
  (forall t,
      In t (pending_tasks q) -> task_id t = id ->
      exists q',
        claim_task q id = Ok (Some t, q')
        /\ active_task q' = Some t
        /\ (forall u, In u (pending_tasks q') <-> In u (pending_tasks q) /\ u <> t)
        /\ claim_task q' id = Ok (None, q'))
  /\ ((forall t, In t (pending_tasks q) -> task_id t <> id) ->
      claim_task q id = Ok (None, q))
  /\ claim_exclusive q id.
Proof.
  intros Hnodup.
  assert (Hrest : forall t l1 l2,
             pending_tasks q = l1 ++ t :: l2 ->
             task_id t = id ->
             Forall (fun u => task_id u <> id) l1 ->
             forall u, In u (l1 ++ l2) -> task_id u <> id).
  { intros t l1 l2 Hl Hid Hall u Hu.
    apply in_app_or in Hu. destruct Hu as [Hu|Hu].
    - rewrite Forall_forall in Hall. exact (Hall u Hu).
    - intros Hidu. rewrite Hl, map_app in Hnodup. simpl in Hnodup.
      apply NoDup_remove_2 in Hnodup. apply Hnodup.
      apply in_or_app. right. rewrite Hid, <- Hidu. apply in_map. exact Hu. }
  assert (Hnext : forall t l1 l2,
             pending_tasks q = l1 ++ t :: l2 ->
             task_id t = id ->
             Forall (fun u => task_id u <> id) l1 ->
             let q' := {| rpc_endpoint := rpc_endpoint q;
                          pending_tasks := l1 ++ l2;
                          active_task := Some t |} in
             claim_task q' id = Ok (None, q')).
  { intros t l1 l2 Hl Hid Hall q'. unfold claim_task. simpl.
    rewrite (proj2 (find_task_None id (l1 ++ l2)) (Hrest t l1 l2 Hl Hid Hall)).
    reflexivity. }
  split; [|split].
  - intros t Hin Hid.
    destruct (claim_task_cases q id)
      as [[Hnone _]|(t' & l1 & l2 & _ & Hid' & Hl & Hall & Hc)].
    + exfalso. exact (proj1 (find_task_None _ _) Hnone t Hin Hid).
    + assert (Ht : t' = t).
      { apply (unique_id (pending_tasks q)); try assumption; [|congruence].
        rewrite Hl. apply in_or_app. right. left. reflexivity. }
      subst t'. eexists. split; [exact Hc|]. split; [reflexivity|]. split.
      * intros u. simpl. rewrite Hl. split.
        -- intros Hu. split.
           ++ apply in_app_or in Hu. apply in_or_app.
              destruct Hu as [Hu|Hu]; [left | right; right]; exact Hu.
           ++ intros ->. exact (Hrest t l1 l2 Hl Hid Hall t Hu Hid).
        -- intros [Hu Hne]. apply in_app_or in Hu. apply in_or_app.
           destruct Hu as [Hu|[Hu|Hu]]; [left; exact Hu | | right; exact Hu].
           exfalso. apply Hne. symmetry. exact Hu.
      * exact (Hnext t l1 l2 Hl Hid Hall).
  - intros Hnone. unfold claim_task.
    rewrite (proj2 (find_task_None id (pending_tasks q)) Hnone). reflexivity.
  - intros t q1 Hfirst.
    destruct (claim_task_cases q id)
      as [[_ Hc]|(t' & l1 & l2 & _ & Hid' & Hl & Hall & Hc)];
      rewrite Hc in Hfirst; [discriminate Hfirst|].
    injection Hfirst as _ <-. eexists. exact (Hnext t' l1 l2 Hl Hid' Hall).
Qed.

Lemma claim_task_exclusive_witness :
  NoDup (map task_id (pending_tasks queue_ab))
  /\ exists q',
       claim_task queue_ab "task_001" = Ok (Some task_a, q')
       /\ claim_task q' "task_001" = Ok (None, q').
Proof.
  assert (Hnodup : NoDup (map task_id (pending_tasks queue_ab))).
  { simpl. repeat constructor; simpl; intuition discriminate. }
  split; [exact Hnodup|].
  destruct (proj1 (claim_task_exclusive queue_ab "task_001" Hnodup)
              task_a (or_introl eq_refl) eq_refl)
    as (q' & Hc & _ & _ & Hsecond).
  exists q'. split; [exact Hc | exact Hsecond].
Defined.

(** The hypothesis is needed: [add_task] checks no id, and in [queue_aa],
    where the same task was added twice, two claims of its id in a row both
    return it. *)
Remark claims_of_a_task_added_twice :
  let after_first :=
    {| rpc_endpoint := "http://localhost:8545";
       pending_tasks := [task_a];
       active_task := Some task_a |} in
  let after_second :=
    {| rpc_endpoint := "http://localhost:8545";
       pending_tasks := [];
       active_task := Some task_a |} in
  claim_task queue_aa "task_001" = Ok (Some task_a, after_first)
  /\ claim_task after_first "task_001" = Ok (Some task_a, after_second).
Proof. split; reflexivity. Qed.

(** C10: one active task.  When a task is already claimed and a claim of
    the id of a pending task follows, the claim raises no error and returns
    the first pending task with that id; the active task is now that task,
    and the pending list is the old one with that one occurrence taken out:
    nothing is put back.  So a task that was active, is not the new one and
    was not pending is afterwards neither active nor pending. *)
Theorem claim_task_overwrites_active
    (q : TaskQueue) (old t : TrainingTask) :
  active_task q = Some old ->
  In t (pending_tasks q) ->
  exists t' l1 l2 q',
    claim_task q (task_id t) = Ok (Some t', q')
    /\ task_id t' = task_id t
    /\ active_task q' = Some t'
    /\ pending_tasks q = l1 ++ t' :: l2
    /\ pending_tasks q' = l1 ++ l2
    /\ (old <> t' -> ~ In old (pending_tasks q) ->
        active_task q' <> Some old /\ ~ In old (pending_tasks q')).
Proof.
  intros _ Hin.
  destruct (claim_task_cases q (task_id t))
    as [[Hnone _]|(t' & l1 & l2 & _ & Hid & Hl & _ & Hc)].
  - exfalso. exact (proj1 (find_task_None _ _) Hnone t Hin eq_refl).
  - exists t', l1, l2. eexists. split; [exact Hc|]. simpl.
    split; [exact Hid|]. split; [reflexivity|]. split; [exact Hl|].
    split; [reflexivity|]. intros Hneq Hold. split.
    + intros [= E]. apply Hneq. symmetry. exact E.
    + intros Hin'. apply Hold. rewrite Hl.
      apply in_app_or in Hin'. apply in_or_app.
      destruct Hin' as [Hin'|Hin']; [left | right; right]; exact Hin'.
Qed.

Lemma claim_task_overwrites_active_witness :
  let q := {| rpc_endpoint := "http://localhost:8545";
              pending_tasks := [task_b];
              active_task := Some task_a |} in
  active_task q = Some task_a
  /\ In task_b (pending_tasks q)
  /\ exists q', claim_task q (task_id task_b) = Ok (Some task_b, q')
                /\ active_task q' = Some task_b
                /\ ~ In task_a (pending_tasks q').
Proof.
  intros q.
  assert (Hactive : active_task q = Some task_a) by reflexivity.
  assert (Hin : In task_b (pending_tasks q)) by (left; reflexivity).
  split; [exact Hactive|]. split; [exact Hin|].
  destruct (claim_task_overwrites_active q task_a task_b Hactive Hin)
    as (t' & l1 & l2 & q' & Hc & _ & Hact & _ & _ & Hgone).
  assert (Ht : t' = task_b) by (cbv in Hc; injection Hc as Ht _; symmetry; exact Ht).
  subst t'. exists q'. split; [exact Hc|]. split; [exact Hact|].
  apply Hgone; [discriminate | simpl; intuition discriminate].
Defined.

End QueueProperties.

(** ** Sorting of names *)

Module SortFacts.

Lemma ascii_compare_refl (a : ascii) : Ascii.compare a a = Eq.
Proof. unfold Ascii.compare. apply N.compare_refl. Qed.

Lemma ascii_compare_lt_trans (a b c : ascii) :
  Ascii.compare a b = Lt -> Ascii.compare b c = Lt -> Ascii.compare a c = Lt.
Proof.
  unfold Ascii.compare. rewrite !N.compare_lt_iff. apply N.lt_trans.
Qed.

Lemma string_compare_refl (s : string) : String.compare s s = Eq.
Proof.
  induction s as [|a s IH]; simpl; [reflexivity|].
  rewrite ascii_compare_refl. exact IH.
Qed.

Lemma string_compare_lt_trans (s1 : string) :
  forall s2 s3,
    String.compare s1 s2 = Lt -> String.compare s2 s3 = Lt ->
    String.compare s1 s3 = Lt.
Proof.
  induction s1 as [|a s1 IH]; intros [|b s2] [|c s3]; simpl;
    try discriminate; try reflexivity.
  destruct (Ascii.compare a b) eqn:Eab; try discriminate;
    destruct (Ascii.compare b c) eqn:Ebc; try discriminate; intros H12 H23.
  - apply Ascii.compare_eq_iff in Eab, Ebc. subst.
    rewrite ascii_compare_refl. exact (IH _ _ H12 H23).
  - apply Ascii.compare_eq_iff in Eab. subst. rewrite Ebc. reflexivity.
  - apply Ascii.compare_eq_iff in Ebc. subst. rewrite Eab. reflexivity.
  - rewrite (ascii_compare_lt_trans _ _ _ Eab Ebc). reflexivity.
Qed.

Lemma leb_cases (s1 s2 : string) :
  String.leb s1 s2 = true <-> String.compare s1 s2 = Lt \/ s1 = s2.
Proof.
  unfold String.leb. split.
  - destruct (String.compare s1 s2) eqn:E; try discriminate; intros _.
    + right. apply String.compare_eq_iff. exact E.
    + left. reflexivity.
  - intros [->| ->]; [reflexivity|]. rewrite string_compare_refl. reflexivity.
Qed.

Lemma leb_refl (s : string) : String.leb s s = true.
Proof. apply leb_cases. right. reflexivity. Qed.

Lemma leb_trans (s1 s2 s3 : string) :
  String.leb s1 s2 = true -> String.leb s2 s3 = true -> String.leb s1 s3 = true.
Proof.
  rewrite !leb_cases. intros [H12| ->] [H23| <-]; auto.
  left. exact (string_compare_lt_trans _ _ _ H12 H23).
Qed.

Lemma leb_false (s1 s2 : string) :
  String.leb s1 s2 = false -> String.leb s2 s1 = true.
Proof.
  intros H. destruct (String.leb_total s1 s2) as [H'|H']; congruence.
Qed.

(** Inserting two names gives the same list in either order. *)
Lemma insert_sorted_comm (a b : string) (l : list string) :
  insert_sorted a (insert_sorted b l) = insert_sorted b (insert_sorted a l).
Proof.
  induction l as [|x l IH]; simpl.
  - destruct (String.leb a b) eqn:Eab, (String.leb b a) eqn:Eba; try reflexivity.
    + rewrite (String.leb_antisym _ _ Eab Eba). reflexivity.
    + apply leb_false in Eab. congruence.
  - destruct (String.leb b x) eqn:Ebx, (String.leb a x) eqn:Eax; simpl;
      rewrite ?Ebx, ?Eax.
    + destruct (String.leb a b) eqn:Eab, (String.leb b a) eqn:Eba; try reflexivity.
      * rewrite (String.leb_antisym _ _ Eab Eba). reflexivity.
      * apply leb_false in Eab. congruence.
    + assert (Eab : String.leb a b = false).
      { destruct (String.leb a b) eqn:Eab; [|reflexivity].
        rewrite (leb_trans _ _ _ Eab Ebx) in Eax. discriminate. }
      rewrite Eab. reflexivity.
    + assert (Eba : String.leb b a = false).
      { destruct (String.leb b a) eqn:Eba; [|reflexivity].
        rewrite (leb_trans _ _ _ Eba Eax) in Ebx. discriminate. }
      rewrite Eba. reflexivity.
    + rewrite IH. reflexivity.
Qed.

(** [sorted] sees the names only as a multiset. *)
Lemma sorted_Permutation (l l' : list string) :
  Permutation l l' -> sorted l = sorted l'.
Proof.
  induction 1 as [|x l l' _ IH|x y l|l l' l'' _ IH1 _ IH2]; simpl.
  - reflexivity.
  - rewrite IH. reflexivity.
  - apply insert_sorted_comm.
  - congruence.
Qed.

Lemma insert_sorted_Permutation (x : string) (l : list string) :
  Permutation (x :: l) (insert_sorted x l).
Proof.
  induction l as [|y l IH]; simpl; [reflexivity|].
  destruct (String.leb x y); [reflexivity|].
  rewrite perm_swap. apply perm_skip. exact IH.
Qed.

Lemma sorted_is_Permutation (l : list string) : Permutation l (sorted l).
Proof.
  induction l as [|x l IH]; simpl; [constructor|].
  rewrite <- insert_sorted_Permutation. apply perm_skip. exact IH.
Qed.

Lemma insert_sorted_Sorted (x : string) (l : list string) :
  Sorted string_le l -> Sorted string_le (insert_sorted x l).
Proof.
  induction 1 as [|y l Hs IH Hhd]; simpl.
  - repeat constructor.
  - destruct (String.leb x y) eqn:E.
    + constructor; [constructor; assumption|]. constructor. exact E.
    + constructor; [exact IH|].
      destruct Hhd as [|z l Hyz]; simpl.
      * constructor. apply leb_false. exact E.
      * destruct (String.leb x z); constructor;
          [apply leb_false; exact E | exact Hyz].
Qed.

(** [sorted] returns its argument in ascending order. *)
Lemma sorted_Sorted (l : list string) : Sorted string_le (sorted l).
Proof.
  induction l as [|x l IH]; simpl; [constructor|].
  apply insert_sorted_Sorted. exact IH.
Qed.

End SortFacts.

(** ** Dicts *)

Module DictFacts.

Lemma getitem_In {V : Type} (d : dict V) (k : string) :
  In k (keys d) -> exists v, getitem d k = Ok v.
Proof.
  induction d as [|[k' v'] d IH]; simpl; [intros []|].
  destruct (String.eqb k' k) eqn:E; [eauto|].
  intros [H|H]; [|exact (IH H)].
  apply String.eqb_neq in E. contradiction.
Qed.

Lemma getitem_not_In {V : Type} (d : dict V) (k : string) :
  ~ In k (keys d) -> getitem d k = Raise (KeyError k).
Proof.
  induction d as [|[k' v'] d IH]; simpl; [reflexivity|].
  intros H. destruct (String.eqb k' k) eqn:E.
  - apply String.eqb_eq in E. exfalso. apply H. left. exact E.
  - apply IH. intros H'. apply H. right. exact H'.
Qed.

Lemma getitem_Ok_In {V : Type} (d : dict V) (k : string) (v : V) :
  getitem d k = Ok v -> In (k, v) d.
Proof.
  induction d as [|[k' v'] d IH]; simpl; [discriminate|].
  destruct (String.eqb k' k) eqn:E.
  - intros [= <-]. apply String.eqb_eq in E. subst. left. reflexivity.
  - intros H. right. exact (IH H).
Qed.

(** Lookup does not depend on the order of the items of a dict. *)
Lemma getitem_Permutation {V : Type} (d d' : dict V) :
  Permutation d d' -> well_formed_dict d ->
  forall k, getitem d k = getitem d' k.
Proof.
  unfold well_formed_dict.
  induction 1 as [|[k1 v1] d d' Hp IH|[k1 v1] [k2 v2] d|d d' d'' Hp1 IH1 Hp2 IH2];
    intros Hnd k; simpl in *.
  - reflexivity.
  - rewrite IH; [reflexivity|]. inversion Hnd; assumption.
  - destruct (String.eqb k1 k) eqn:E1, (String.eqb k2 k) eqn:E2; try reflexivity.
    apply String.eqb_eq in E1, E2. subst. inversion Hnd as [|? ? Hnotin _].
    exfalso. apply Hnotin. left. reflexivity.
  - rewrite IH1 by exact Hnd. apply IH2.
    unfold keys in *. eapply Permutation_NoDup; [|exact Hnd].
    apply Permutation_map. exact Hp1.
Qed.

End DictFacts.

(** ** [hash_gradients] *)

Section HashProperties.

Variable tensor : Type.
Variable tobytes : tensor -> bytes.
Variable sha256 : bytes -> bytes.

Lemma hash_loop_ext (d d' : dict tensor) (names : list string) :
  (forall k, getitem d k = getitem d' k) ->
  forall h, hash_loop tobytes d names h = hash_loop tobytes d' names h.
Proof.
  intros Hext. induction names as [|name rest IH]; intros h; simpl.
  - reflexivity.
  - rewrite Hext. destruct (getitem d' name); simpl; [apply IH|reflexivity].
Qed.

(** The loop raises nothing when every name it visits is a key. *)
Lemma hash_loop_total (d : dict tensor) (names : list string) :
  (forall name, In name names -> In name (keys d)) ->
  forall h, exists h', hash_loop tobytes d names h = Ok h'.
Proof.
  induction names as [|name rest IH]; intros Hin h; simpl.
  - eauto.
  - destruct (DictFacts.getitem_In d name (Hin name (or_introl eq_refl)))
      as [v ->]. simpl.
    apply IH. intros n Hn. apply Hin. right. exact Hn.
Qed.

Lemma hash_gradients_total (d : dict tensor) :
  exists digest, hash_gradients tobytes sha256 d = Ok digest.
Proof.
  unfold hash_gradients.
  destruct (hash_loop_total d (sorted (keys d))) with (h := hasher_new)
    as [h' ->].
  - intros name Hn.
    eapply Permutation_in; [|exact Hn].
    symmetry. apply SortFacts.sorted_is_Permutation.
  - simpl. eauto.
Qed.

(** The loop feeds the items of the visited names, in the order of the
    names. *)
Lemma hash_loop_items (d : dict tensor) (names : list string) :
  (forall name, In name names -> In name (keys d)) ->
  forall h,
  exists items,
    keys items = names
    /\ incl items d
    /\ hash_loop tobytes d names h
       = Ok {| fed := fed h ++ flat_map (item_bytes tobytes) items |}.
Proof.
  induction names as [|name rest IH]; intros Hin h.
  - exists []. simpl. rewrite app_nil_r. destruct h. repeat split. intros ? [].
  - destruct (DictFacts.getitem_In d name (Hin name (or_introl eq_refl)))
      as [v Hv].
    destruct (IH (fun n Hn => Hin n (or_intror Hn))
                 (update (update h (encode name)) (tobytes v)))
      as (items & Hkeys & Hincl & Hloop).
    exists ((name, v) :: items). simpl. rewrite Hv, Hkeys. simpl.
    split; [reflexivity|]. split.
    + intros item [<-|Hitem]; [|exact (Hincl item Hitem)].
      apply DictFacts.getitem_Ok_In. exact Hv.
    + rewrite Hloop. unfold item_bytes. simpl. rewrite <- !app_assoc. reflexivity.
Qed.

(** The digest is that of the items of the dict taken in ascending order
    of their names. *)
Lemma hash_gradients_sorted_items (d : dict tensor) :
  well_formed_dict d ->
  exists items,
    Permutation items d
    /\ Sorted string_le (keys items)
    /\ hash_gradients tobytes sha256 d
       = Ok (hex (sha256 (flat_map (item_bytes tobytes) items))).
Proof.
  intros Hwf. unfold hash_gradients.
  destruct (hash_loop_items d (sorted (keys d))) with (h := hasher_new)
    as (items & Hkeys & Hincl & ->).
  - intros name Hn. eapply Permutation_in; [|exact Hn].
    symmetry. apply SortFacts.sorted_is_Permutation.
  - exists items. split; [|split].
    + assert (Hperm : Permutation (keys items) (keys d)).
      { rewrite Hkeys. symmetry. apply SortFacts.sorted_is_Permutation. }
      apply NoDup_Permutation_bis.
      * apply (NoDup_map_inv fst). eapply Permutation_NoDup; [|exact Hwf].
        symmetry. exact Hperm.
      * apply Permutation_length in Hperm. unfold keys in Hperm.
        rewrite !length_map in Hperm. lia.
      * exact Hincl.
    + rewrite Hkeys. apply SortFacts.sorted_Sorted.
    + reflexivity.
Qed.

(** C5: the digest does not depend on the order of the items.  Two dicts
    with the same items in any two orders have the same digest;
    [hash_gradients] raises nothing; and the digest is that of the items
    taken in ascending order of their names.  The digest is a function of the
    dict alone (no clock, no state), so hashing the same dict twice gives the
    same digest. *)
Theorem hash_gradients_order_independent (G G' : dict tensor) :
  well_formed_dict G ->
  Permutation G G' ->
  hash_gradients tobytes sha256 G' = hash_gradients tobytes sha256 G
  /\ exists items,
       Permutation items G
       /\ Sorted string_le (keys items)
       /\ hash_gradients tobytes sha256 G
          = Ok (hex (sha256 (flat_map (item_bytes tobytes) items))).
Proof.
  intros Hwf Hperm. split; [|apply hash_gradients_sorted_items; exact Hwf].
  unfold hash_gradients.
  rewrite <- (SortFacts.sorted_Permutation (keys G) (keys G'))
    by (apply Permutation_map; exact Hperm).
  rewrite (hash_loop_ext G G' (sorted (keys G))
             (DictFacts.getitem_Permutation G G' Hperm Hwf)).
  reflexivity.
Qed.

End HashProperties.

Module HashExamples.
Import Examples.

Lemma hash_gradients_order_independent_witness :
  well_formed_dict gradients_wb
  /\ Permutation gradients_wb gradients_bw
  /\ hash_gradients tobytes sha256 gradients_bw
     = hash_gradients tobytes sha256 gradients_wb.
Proof.
  assert (Hwf : well_formed_dict gradients_wb).
  { unfold well_formed_dict. simpl.
    repeat constructor; simpl; intuition discriminate. }
  assert (Hperm : Permutation gradients_wb gradients_bw) by apply perm_swap.
  split; [exact Hwf|]. split; [exact Hperm|].
  exact (proj1 (hash_gradients_order_independent
                  tensor tobytes sha256 gradients_wb gradients_bw Hwf Hperm)).
Defined.

End HashExamples.

(** ** Float arithmetic *)

Module PyFloatFacts.

Lemma Rltb_true (a b : R) : Rltb a b = true <-> (a < b)%R.
Proof. unfold Rltb. destruct (Rlt_dec a b); split; intros; try discriminate; tauto. Qed.

Lemma Rltb_false (a b : R) : Rltb a b = false <-> (b <= a)%R.
Proof.
  unfold Rltb. destruct (Rlt_dec a b); split; intros; try discriminate;
    try reflexivity; lra.
Qed.

Lemma Rleb_true (a b : R) : Rleb a b = true <-> (a <= b)%R.
Proof. unfold Rleb. destruct (Rle_dec a b); split; intros; try discriminate; tauto. Qed.

Lemma Rleb_false (a b : R) : Rleb a b = false <-> (b < a)%R.
Proof.
  unfold Rleb. destruct (Rle_dec a b); split; intros; try discriminate;
    try reflexivity; lra.
Qed.

(** Decide every comparison of reals in sight. *)
Ltac cmp :=
  repeat match goal with
         | |- context [Rltb ?a ?b] =>
             let E := fresh "E" in
             destruct (Rltb a b) eqn:E;
             [apply Rltb_true in E | apply Rltb_false in E]
         | |- context [Rleb ?a ?b] =>
             let E := fresh "E" in
             destruct (Rleb a b) eqn:E;
             [apply Rleb_true in E | apply Rleb_false in E]
         end.

Ltac fin :=
  simpl; repeat (progress cmp; simpl);
  try reflexivity; try (f_equal; lra); try lra.

Lemma fadd_0_l (x : pyfloat) : fadd (Fin 0) x = x.
Proof. destruct x; simpl; try reflexivity. f_equal. lra. Qed.

Lemma fadd_0_r (x : pyfloat) : fadd x (Fin 0) = x.
Proof. destruct x; simpl; try reflexivity. f_equal. lra. Qed.

Lemma fsquare_nonneg (x : pyfloat) : nonneg (fsquare x).
Proof. destruct x; simpl; try exact I. nra. Qed.

(** [x ** 2] is the square, or OverflowError when the square does not fit. *)
Lemma py_pow2_cases (x : pyfloat) :
  py_pow2 x = if square_fits x then Ok (fsquare x) else Raise OverflowError.
Proof.
  destruct x as [a| | |]; simpl; try reflexivity.
  destruct (Rltb float_max (a * a)); reflexivity.
Qed.

(** The doubles reach every integer up to [2 ^ 1023]. *)
Lemma float_max_above (n : Z) : (n <= 2 ^ 1023)%Z -> (IZR n <= float_max)%R.
Proof. intros H. unfold float_max. apply IZR_le. lia. Qed.

Lemma square_fits_small (a : R) :
  (a * a <= 1000000)%R -> square_fits (Fin a) = true.
Proof.
  intros H. simpl.
  pose proof (float_max_above 1000000 ltac:(lia)) as Hmax.
  rewrite (proj2 (Rltb_false float_max (a * a))) by lra. reflexivity.
Qed.

Lemma fadd_nonneg (x y : pyfloat) : nonneg x -> nonneg y -> nonneg (fadd x y).
Proof. destruct x, y; simpl; try tauto. lra. Qed.

(** On a sum of squares [** 0.5] raises nothing and is the square root. *)
Lemma py_pow_half_nonneg (x : pyfloat) :
  nonneg x -> py_pow_half x = Ok (fsqrt x) /\ nonneg (fsqrt x).
Proof.
  destruct x; simpl; try tauto.
  intros H. cmp; [lra|]. split; [reflexivity|]. simpl. apply sqrt_pos.
Qed.

(** With a divisor that is not zero, [/] raises nothing. *)
Lemma py_div_nonzero (x : pyfloat) (b : R) :
  b <> 0%R -> py_div x (Fin b) = Ok (fdiv_ieee x (Fin b)).
Proof. intros H. unfold py_div. cmp; simpl; try reflexivity. lra. Qed.

Lemma py_div_positive (x p : pyfloat) :
  flt (Fin 0) p = true -> py_div x p = Ok (fdiv_ieee x p).
Proof.
  destruct p; simpl; try discriminate; try reflexivity.
  intros H. apply Rltb_true in H. apply py_div_nonzero. lra.
Qed.

End PyFloatFacts.

(** ** [compute_gradient_quality] *)

Section QualityProperties.
Import PyFloatFacts.

Variable tensor : Type.
Variable norm_item : tensor -> pyfloat.

(** The accumulating loop stops with OverflowError at the first square
    that does not fit, and otherwise adds the squares to what it starts
    from, in the order of the list. *)
Lemma accumulate_norm_cases (grads : list tensor) :
  forall start,
    accumulate_norm norm_item grads start
    = if forallb (fun grad => square_fits (norm_item grad)) grads
      then Ok (fold_left (fun acc grad => fadd acc (fsquare (norm_item grad)))
                         grads start)
      else Raise OverflowError.
Proof.
  induction grads as [|g grads IH]; intros start; simpl; [reflexivity|].
  rewrite py_pow2_cases.
  destruct (square_fits (norm_item g)); simpl; [apply IH | reflexivity].
Qed.

Lemma norm_loop_spec (gradients : dict tensor) :
  accumulate_norm norm_item (values gradients) (Fin 0)
  = if squares_fit norm_item gradients
    then Ok (sum_of_squared_norms norm_item gradients)
    else Raise OverflowError.
Proof. apply accumulate_norm_cases. Qed.

Lemma sum_of_squared_norms_nonneg (gradients : dict tensor) :
  nonneg (sum_of_squared_norms norm_item gradients).
Proof.
  unfold sum_of_squared_norms.
  assert (H : forall grads start,
             nonneg start ->
             nonneg (fold_left (fun acc grad => fadd acc (fsquare (norm_item grad)))
                               grads start)).
  { induction grads as [|g grads IH]; intros start Hstart; simpl; [exact Hstart|].
    apply IH. apply fadd_nonneg; [exact Hstart | apply fsquare_nonneg]. }
  apply H. simpl. lra.
Qed.

Lemma py_max_0 (x : pyfloat) : py_max (Fin 0) x = spec_max (Fin 0) x.
Proof. destruct x; unfold py_max, spec_max; fin. Qed.

Lemma py_min_1_max_0 (x : pyfloat) :
  py_min (Fin 1) (py_max (Fin 0) x) = spec_min (Fin 1) (spec_max (Fin 0) x).
Proof.
  rewrite py_max_0. destruct x; unfold py_min, spec_min, spec_max; fin.
Qed.

(** The magnitude branch of the code raises nothing and computes the
    magnitude sub-score. *)
Lemma magnitude_score_spec (total_norm : pyfloat) :
  (if fle (Fin 0.1) total_norm && fle total_norm (Fin 10) then Ok (Fin 1)
   else if flt total_norm (Fin 0.1) then py_div total_norm (Fin 0.1)
   else (q <- py_div (fsub total_norm (Fin 10)) (Fin 100) ;;
         Ok (py_max (Fin 0) (fsub (Fin 1) q)))%py)
  = Ok (spec_magnitude total_norm).
Proof.
  unfold spec_magnitude.
  destruct (fle (Fin 0.1) total_norm && fle total_norm (Fin 10)); [reflexivity|].
  destruct (flt total_norm (Fin 0.1)).
  - apply py_div_nonzero. lra.
  - rewrite py_div_nonzero by lra. simpl. rewrite py_max_0. reflexivity.
Qed.

(** [sum(scores) / len(scores)] raises nothing on the one or two
    sub-scores, and is their arithmetic mean: adding the 0 that [sum]
    starts from changes nothing. *)
Lemma mean_spec (m : pyfloat) (rest : list pyfloat) :
  (List.length rest <= 1)%nat ->
  py_div (py_sum (m :: rest)) (of_nat (List.length (m :: rest)))
  = Ok (arithmetic_mean (m :: rest)).
Proof.
  intros Hlen. unfold py_sum, arithmetic_mean, of_nat.
  replace (fold_left fadd (m :: rest) (Fin 0))
    with (fold_right fadd (Fin 0) (m :: rest)).
  - apply py_div_nonzero. apply not_0_INR. discriminate.
  - destruct rest as [|i [|? ?]]; [| |simpl in Hlen; lia];
      cbn [fold_left fold_right]; rewrite fadd_0_l, fadd_0_r; reflexivity.
Qed.

(** On the sum of the squares [** 0.5] raises nothing and gives the
    square root. *)
Lemma total_norm_spec (gradients : dict tensor) :
  py_pow_half (sum_of_squared_norms norm_item gradients)
  = Ok (spec_total_norm norm_item gradients).
Proof. apply py_pow_half_nonneg. apply sum_of_squared_norms_nonneg. Qed.

Lemma improvement_length (loss : pyfloat) (prev_loss : option pyfloat) :
  (List.length match prev_loss with
               | Some p => if flt (Fin 0) p then [spec_improvement loss p] else []
               | None => []
               end <= 1)%nat.
Proof.
  destruct prev_loss as [p|]; [destruct (flt (Fin 0) p)|]; simpl; lia.
Qed.

(** The improvement branch raises nothing; with the magnitude sub-score
    [m] already in the list, it leaves the list of the sub-scores. *)
Lemma improvement_scores_spec
    (m loss : pyfloat) (prev_loss : option pyfloat) :
  match prev_loss with
  | Some p =>
      if flt (Fin 0) p then
        (improvement <- py_div (fsub p loss) p ;;
         Ok [m; py_min (Fin 1) (py_max (Fin 0) (fadd improvement (Fin 0.5)))])%py
      else Ok [m]
  | None => Ok [m]
  end
  = Ok (m :: match prev_loss with
             | Some p => if flt (Fin 0) p then [spec_improvement loss p] else []
             | None => []
             end).
Proof.
  destruct prev_loss as [p|]; [|reflexivity].
  destruct (flt (Fin 0) p) eqn:Hp; [|reflexivity].
  rewrite (py_div_positive _ _ Hp). cbn [bind app].
  rewrite py_min_1_max_0. reflexivity.
Qed.

(** Run [compute_gradient_quality] through its steps, once it is known
    whether the squares fit. *)
Ltac run_quality Hfit :=
  unfold compute_gradient_quality;
  rewrite norm_loop_spec, Hfit; cbn [bind app];
  [ rewrite total_norm_spec; cbn [bind app];
    rewrite magnitude_score_spec; cbn [bind app];
    rewrite improvement_scores_spec; cbn [bind];
    rewrite mean_spec by apply improvement_length ].

(** When the square of every norm fits, a score is returned. *)
Lemma compute_gradient_quality_returns
    (gradients : dict tensor) (loss : pyfloat) (prev_loss : option pyfloat) :
  squares_fit norm_item gradients = true ->
  exists score,
    compute_gradient_quality norm_item gradients loss prev_loss = Ok score.
Proof. intros Hfit. run_quality Hfit. eauto. Qed.

Lemma spec_magnitude_unit (total_norm : pyfloat) :
  nonneg total_norm -> in_unit_interval (spec_magnitude total_norm).
Proof.
  unfold spec_magnitude, spec_max, in_unit_interval.
  destruct total_norm as [r| | |]; simpl; intros Hr; try contradiction.
  - repeat (progress cmp; simpl); try (exfalso; lra);
      eexists; (split; [reflexivity|]); lra.
  - repeat (progress cmp; simpl); try (exfalso; lra).
    exists 0%R. split; [reflexivity | lra].
  - exists 0%R. split; [reflexivity | lra].
Qed.

(** Clamping to [0, 1] lands in [0, 1] whatever is clamped, NaN and the
    infinities included. *)
Lemma clamp_unit (x : pyfloat) :
  in_unit_interval (spec_min (Fin 1) (spec_max (Fin 0) x)).
Proof.
  unfold spec_min, spec_max, in_unit_interval.
  destruct x as [r| | |]; simpl; repeat (progress cmp; simpl);
    try (exfalso; lra); eexists; (split; [reflexivity|]); lra.
Qed.

Lemma arithmetic_mean_unit (xs : list pyfloat) :
  xs <> [] ->
  Forall in_unit_interval xs ->
  in_unit_interval (arithmetic_mean xs).
Proof.
  intros Hne Hall.
  assert (Hsum : exists s, fold_right fadd (Fin 0) xs = Fin s
                           /\ (0 <= s <= INR (List.length xs))%R).
  { clear Hne. induction Hall as [|x xs (r & -> & Hr) _ (s & Hs & Hbound)].
    - exists 0%R. simpl. split; [reflexivity | lra].
    - exists (r + s)%R. cbn [fold_right]. rewrite Hs.
      split; [reflexivity|]. change (List.length (Fin r :: xs)) with (S (List.length xs)).
      rewrite S_INR. lra. }
  destruct Hsum as (s & Hs & Hbound).
  assert (Hn : (0 < INR (List.length xs))%R).
  { apply lt_0_INR. destruct xs; [contradiction | simpl; lia]. }
  unfold arithmetic_mean, of_nat. rewrite Hs. simpl.
  destruct (Rltb 0 (INR (List.length xs))) eqn:E;
    [|apply Rltb_false in E; lra].
  simpl. exists (s / INR (List.length xs))%R. split; [reflexivity|].
  assert (Hinv : (0 < / INR (List.length xs))%R) by (apply Rinv_0_lt_compat; exact Hn).
  assert (Hone : (INR (List.length xs) * / INR (List.length xs) = 1)%R)
    by (apply Rinv_r; lra).
  unfold Rdiv. split; nra.
Qed.

Lemma spec_quality_unit
    (gradients : dict tensor) (loss : pyfloat) (prev_loss : option pyfloat) :
  in_unit_interval (spec_quality norm_item gradients loss prev_loss).
Proof.
  unfold spec_quality. apply arithmetic_mean_unit; [discriminate|].
  unfold spec_sub_scores. constructor.
  - apply spec_magnitude_unit. unfold spec_total_norm.
    apply py_pow_half_nonneg. apply sum_of_squared_norms_nonneg.
  - destruct prev_loss as [p|]; [|constructor].
    destruct (flt (Fin 0) p); constructor; [|constructor].
    apply clamp_unit.
Qed.


(** C8: for every gradient dict, loss and optional previous loss (NaN and
    the infinities included), every score [compute_gradient_quality]
    returns is a number between 0 and 1.  It returns one whenever the
    square of every norm is within the doubles, and raises nothing but the
    OverflowError of [** 2]. *)
Theorem compute_gradient_quality_in_unit_interval
    (gradients : dict tensor) (loss : pyfloat) (prev_loss : option pyfloat) :
  (forall score,
      compute_gradient_quality norm_item gradients loss prev_loss = Ok score ->
      in_unit_interval score)
  /\ (squares_fit norm_item gradients = true ->
      exists score,
        compute_gradient_quality norm_item gradients loss prev_loss = Ok score
        /\ in_unit_interval score)
  /\ (forall e,
         compute_gradient_quality norm_item gradients loss prev_loss = Raise e ->
         e = OverflowError).
Proof.
  pose proof (spec_quality_unit gradients loss prev_loss) as Hunit.
  destruct (squares_fit norm_item gradients) eqn:Hfit.
  - assert (Hrun : compute_gradient_quality norm_item gradients loss prev_loss
                   = Ok (spec_quality norm_item gradients loss prev_loss)).
    { run_quality Hfit. unfold spec_quality, spec_sub_scores. reflexivity. }
    rewrite Hrun. split; [|split].
    + intros score [= <-]. exact Hunit.
    + intros _. eauto.
    + discriminate.
  - assert (Hrun : compute_gradient_quality norm_item gradients loss prev_loss
                   = Raise OverflowError).
    { unfold compute_gradient_quality. rewrite norm_loop_spec, Hfit. reflexivity. }
    rewrite Hrun. split; [|split]; try discriminate.
    intros e [= <-]. reflexivity.
Qed.

End QualityProperties.

(** ** GradientComputer *)

Section ComputerProperties.

Variable tensor : Type.
Variable model : Type.
Variable norm_item : tensor -> pyfloat.
Variable tobytes : tensor -> bytes.
Variable sha256 : bytes -> bytes.
Variable slice : tensor -> Z -> Z -> tensor.
Variable count_correct : tensor -> tensor -> Z.
Variable size0 : tensor -> Z.
Variable mse_item : tensor -> tensor -> pyfloat.
Variable mae_item : tensor -> tensor -> pyfloat.
Variable repr_proof_data : string -> string -> pyfloat -> dict pyfloat -> Z -> bytes.
Variable stored : string -> option (ModelConfig * model).

Local Abbreviation compute :=
  (compute_gradients norm_item tobytes sha256 slice count_correct size0
                     mse_item mae_item repr_proof_data stored).
Local Abbreviation compute_metrics :=
  (_compute_metrics count_correct size0 mse_item mae_item).
Local Abbreviation verify := (verify_result sha256 repr_proof_data).
Local Abbreviation generate_proof := (_generate_proof sha256 repr_proof_data).

(** [verify_result] is the conjunction of its two guards: the proof of
    the result has no part in the answer. *)
Lemma verify_result_guards
    (self : GradientComputer model) (res : ComputeResult)
    (task : TrainingTask) (now : Z) :
  verify self res task now
  = String.eqb (result_task_id res) (task_id task)
    && (fle (Fin 0) (quality_score res) && fle (quality_score res) (Fin 1)).
Proof.
  unfold verify_result.
  generalize (fle (Fin 0) (quality_score res) && fle (quality_score res) (Fin 1)).
  intros guard.
  destruct (String.eqb (result_task_id res) (task_id task)), guard; reflexivity.
Qed.

Lemma in_unit_interval_guard (x : pyfloat) :
  in_unit_interval x -> fle (Fin 0) x && fle x (Fin 1) = true.
Proof.
  intros (r & -> & Hr). simpl.
  rewrite (proj2 (PyFloatFacts.Rleb_true 0 r)) by lra.
  rewrite (proj2 (PyFloatFacts.Rleb_true r 1)) by lra.
  reflexivity.
Qed.

(** The metrics are computed without error on a batch that is not
    empty. *)
Lemma compute_metrics_total
    (self : GradientComputer model) (outputs targets : tensor) (id : string) :
  size0 targets <> 0%Z ->
  exists metrics, compute_metrics self outputs targets id = Ok metrics.
Proof.
  intros Hsize. unfold _compute_metrics.
  destruct (String.eqb _ "classification").
  - unfold of_Z. rewrite PyFloatFacts.py_div_nonzero.
    + simpl. eauto.
    + apply not_0_IZR. exact Hsize.
  - destruct (String.eqb _ "regression"); eauto.
Qed.

(** What a call that returns has done. *)
Lemma compute_gradients_inv
    (self : GradientComputer model) (task : TrainingTask)
    (data targets : tensor) (run : execution tensor model)
    (res : ComputeResult) (self' : GradientComputer model) :
  compute self task data targets run = Ok (res, self') ->
  exists m reg,
    load_model stored (registry self) (model_id task) = (Some m, reg)
    /\ result_task_id res = task_id task
    /\ loss res = observed_loss slice self reg task data targets run m
    /\ compute_gradient_quality norm_item
         (collect_gradients (named_parameters run m) [])
         (loss res) (prev_loss self)
       = Ok (quality_score res)
    /\ hash_gradients tobytes sha256
         (collect_gradients (named_parameters run m) [])
       = Ok (gradient_hash res)
    /\ proof res
       = generate_proof task (gradient_hash res) (quality_score res)
                        (metrics res) (proof_time run)
    /\ self' = {| registry := reg;
                  current_task := Some task;
                  prev_loss := Some (loss res) |}.
Proof.
  unfold compute_gradients, observed_loss, loaded_computer.
  destruct (load_model stored (registry self) (model_id task)) as [[m|] reg];
    [|discriminate].
  cbn [prev_loss registry current_task].
  destruct (compute_gradient_quality _ _ _ _) as [score|] eqn:Hscore;
    [|discriminate].
  destruct (hash_gradients _ _ _) as [digest|] eqn:Hhash; [|discriminate].
  destruct (_compute_metrics _ _ _ _ _ _ _ _) as [ms|] eqn:Hmetrics;
    [|discriminate].
  cbn [bind]. intros [= <- <-]. exists m, reg. cbn.
  repeat split; assumption.
Qed.

(** A call returns, with the loss the executor gave, as soon as the model
    is found, the square of every gradient norm fits and the batch is not
    empty. *)
Lemma compute_gradients_returns
    (self : GradientComputer model) (task : TrainingTask)
    (data targets : tensor) (run : execution tensor model)
    (m : model) (reg : ModelRegistry model) :
  load_model stored (registry self) (model_id task) = (Some m, reg) ->
  squares_fit norm_item (collect_gradients (named_parameters run m) []) = true ->
  size0 (slice targets (batch_start task) (batch_end task)) <> 0%Z ->
  exists res self',
    compute self task data targets run = Ok (res, self')
    /\ loss res = observed_loss slice self reg task data targets run m.
Proof.
  intros Hload Hfit Hsize.
  unfold compute_gradients, observed_loss, loaded_computer. rewrite Hload.
  cbn [prev_loss registry current_task].
  match goal with
  | |- context [compute_gradient_quality ?n ?g ?l ?p] =>
      destruct (compute_gradient_quality_returns _ n g l p Hfit) as [score ->]
  end.
  cbn [bind].
  destruct (hash_gradients_total tensor tobytes sha256
              (collect_gradients (named_parameters run m) [])) as [digest ->].
  cbn [bind].
  match goal with
  | |- context [_compute_metrics _ _ _ _ ?s ?o ?t ?i] =>
      destruct (compute_metrics_total s o t i Hsize) as [ms ->]
  end.
  cbn [bind]. eexists. eexists. split; reflexivity.
Qed.

(** C9: a call that returns leaves the loss it returned in [prev_loss],
    whatever the task was, and the score of the next call that returns is
    the quality computed with that loss as the previous loss, whatever the
    next task is. *)
Theorem prev_loss_is_last_loss
    (self : GradientComputer model) (task : TrainingTask)
    (data targets : tensor) (run : execution tensor model)
    (res : ComputeResult) (self' : GradientComputer model) :
  compute self task data targets run = Ok (res, self') ->
  prev_loss self' = Some (loss res)
  /\ forall task2 data2 targets2 run2 res2 self'',
       compute self' task2 data2 targets2 run2 = Ok (res2, self'') ->
       exists m2 reg2,
         load_model stored (registry self') (model_id task2) = (Some m2, reg2)
         /\ compute_gradient_quality norm_item
              (collect_gradients (named_parameters run2 m2) [])
              (loss res2) (Some (loss res))
            = Ok (quality_score res2)
         /\ prev_loss self'' = Some (loss res2).
Proof.
  intros Hcall.
  destruct (compute_gradients_inv _ _ _ _ _ _ _ Hcall)
    as (m & reg & _ & _ & _ & _ & _ & _ & ->).
  split; [reflexivity|].
  intros task2 data2 targets2 run2 res2 self'' Hnext.
  destruct (compute_gradients_inv _ _ _ _ _ _ _ Hnext)
    as (m2 & reg2 & Hload & _ & _ & Hscore & _ & _ & ->).
  exists m2, reg2. split; [exact Hload|]. split; [exact Hscore | reflexivity].
Qed.

(** C6, amended: the computer does not test the loss or the gradients for
    finiteness.  When the model is found, the square of every gradient
    norm is within the doubles and the batch is not empty, the call
    returns a result, the loss of the result is the loss the executor
    gave, as it is, and that loss is stored as the previous loss; a loss
    that is not finite comes back inside the result. *)
Theorem compute_gradients_returns_executor_loss
    (self : GradientComputer model) (task : TrainingTask)
    (data targets : tensor) (run : execution tensor model)
    (m : model) (reg : ModelRegistry model) :
  load_model stored (registry self) (model_id task) = (Some m, reg) ->
  squares_fit norm_item (collect_gradients (named_parameters run m) []) = true ->
  size0 (slice targets (batch_start task) (batch_end task)) <> 0%Z ->
  exists res self',
    compute self task data targets run = Ok (res, self')
    /\ loss res = observed_loss slice self reg task data targets run m
    /\ prev_loss self' = Some (loss res)
    /\ (is_finite (observed_loss slice self reg task data targets run m) = false ->
        is_finite (loss res) = false).
Proof.
  intros Hload Hfit Hsize.
  destruct (compute_gradients_returns self task data targets run m reg
              Hload Hfit Hsize)
    as (res & self' & Hcall & Hloss).
  exists res, self'. split; [exact Hcall|]. split; [exact Hloss|]. split.
  - destruct (compute_gradients_inv _ _ _ _ _ _ _ Hcall)
      as (? & ? & _ & _ & _ & _ & _ & _ & ->). reflexivity.
  - rewrite Hloss. tauto.
Qed.

(** C1, at a failing input: the forged result for [task_a] has the id of
    the task and a score between 0 and 1, its proof is not the commitment
    regenerated from the task and the hash, score and metrics of the
    result, and [verify_result] returns True for it, so the proof is not
    compared.  This holds for every digest function and every serialisation
    of the record. *)
Theorem verify_result_accepts_forged_proof (self : GradientComputer model) :
  let task := Examples.task_a in
  let now := Examples.verify_time in
  let res := forged_result sha256 repr_proof_data task now in
  result_task_id res = task_id task
  /\ in_unit_interval (quality_score res)
  /\ proof res
     <> generate_proof task (gradient_hash res) (quality_score res)
                       (metrics res) now
  /\ verify self res task now = true
  /\ ~ proof_is_compared sha256 repr_proof_data self res task now.
Proof.
  intros task now res.
  assert (Hid : result_task_id res = task_id task) by reflexivity.
  assert (Hscore : in_unit_interval (quality_score res)).
  { exists 0.5%R. split; [reflexivity | lra]. }
  assert (Hproof : proof res
                   <> generate_proof task (gradient_hash res) (quality_score res)
                                     (metrics res) now).
  { unfold res, forged_result. cbn [proof gradient_hash quality_score metrics].
    intros H. apply (f_equal (@List.length _)) in H. simpl in H. lia. }
  assert (Haccepted : verify self res task now = true).
  { rewrite verify_result_guards, (in_unit_interval_guard _ Hscore), Hid.
    rewrite String.eqb_refl. reflexivity. }
  repeat split; try assumption.
  intros Hcompared. specialize (Hcompared Hid Hscore Hproof).
  rewrite Haccepted in Hcompared. discriminate Hcompared.
Qed.

End ComputerProperties.

Module ComputerExamples.
Import Examples.

Local Abbreviation compute :=
  (compute_gradients norm_item tobytes sha256 slice count_correct size0
                     mse_item mae_item repr_proof_data stored).

Lemma test_model_loaded :
  load_model stored (registry test_computer) (model_id task_a)
  = (Some 7%nat, test_registry).
Proof. reflexivity. Qed.

Lemma test_batch_not_empty :
  size0 (slice test_targets (batch_start task_a) (batch_end task_a)) <> 0%Z.
Proof. discriminate. Qed.

(** The gradients of the test runs have norm 5: the square fits. *)
Lemma test_squares_fit (l : pyfloat) (m : model) :
  squares_fit norm_item
    (collect_gradients (named_parameters (run_with_loss l) m) []) = true.
Proof.
  unfold squares_fit. cbn -[square_fits norm_item]. unfold norm_item.
  cbn [fold_right fsquare fadd fsqrt].
  destruct (Rltb (3 * 3 + (4 * 4 + 0)) 0) eqn:E;
    [apply PyFloatFacts.Rltb_true in E; lra|].
  rewrite PyFloatFacts.square_fits_small; [reflexivity|].
  rewrite sqrt_sqrt; lra.
Qed.

(** C6, as stated, fails: on a run whose loss is NaN the call returns a
    result, and the loss of that result is NaN. *)
Lemma nan_loss_comes_back_as_result :
  ~ non_finite_loss_is_reported
      norm_item tobytes sha256 slice count_correct size0 mse_item mae_item
      repr_proof_data stored
      test_computer task_a test_data test_targets (run_with_loss NaN)
  /\ exists res self',
       compute test_computer task_a test_data test_targets (run_with_loss NaN)
       = Ok (res, self')
       /\ loss res = NaN.
Proof.
  destruct (compute_gradients_returns
              tensor model norm_item tobytes sha256 slice count_correct size0
              mse_item mae_item repr_proof_data stored
              test_computer task_a test_data test_targets (run_with_loss NaN)
              7%nat test_registry test_model_loaded (test_squares_fit NaN 7%nat)
              test_batch_not_empty)
    as (res & self' & Hcall & Hloss).
  split; [|exists res, self'; split; [exact Hcall | exact Hloss]].
  intros Hreported. specialize (Hreported res self' Hcall).
  rewrite Hloss in Hreported. discriminate Hreported.
Qed.

Lemma compute_gradients_returns_executor_loss_witness :
  load_model stored (registry test_computer) (model_id task_a)
  = (Some 7%nat, test_registry)
  /\ squares_fit norm_item
       (collect_gradients (named_parameters (run_with_loss PInf) 7%nat) []) = true
  /\ size0 (slice test_targets (batch_start task_a) (batch_end task_a)) <> 0%Z
  /\ exists res self',
       compute test_computer task_a test_data test_targets (run_with_loss PInf)
       = Ok (res, self')
       /\ loss res = PInf.
Proof.
  split; [exact test_model_loaded|].
  split; [exact (test_squares_fit PInf 7%nat)|].
  split; [exact test_batch_not_empty|].
  destruct (compute_gradients_returns_executor_loss
              tensor model norm_item tobytes sha256 slice count_correct size0
              mse_item mae_item repr_proof_data stored
              test_computer task_a test_data test_targets (run_with_loss PInf)
              7%nat test_registry test_model_loaded (test_squares_fit PInf 7%nat)
              test_batch_not_empty)
    as (res & self' & Hcall & Hloss & _).
  exists res, self'. split; [exact Hcall | exact Hloss].
Defined.

Lemma prev_loss_is_last_loss_witness :
  exists res self',
    compute test_computer task_a test_data test_targets (run_with_loss (Fin 2))
    = Ok (res, self')
    /\ prev_loss self' = Some (loss res)
    /\ loss res = Fin 2.
Proof.
  destruct (compute_gradients_returns
              tensor model norm_item tobytes sha256 slice count_correct size0
              mse_item mae_item repr_proof_data stored
              test_computer task_a test_data test_targets (run_with_loss (Fin 2))
              7%nat test_registry test_model_loaded
              (test_squares_fit (Fin 2) 7%nat) test_batch_not_empty)
    as (res & self' & Hcall & Hloss).
  exists res, self'. split; [exact Hcall|]. split; [|exact Hloss].
  exact (proj1 (prev_loss_is_last_loss
                  tensor model norm_item tobytes sha256 slice count_correct size0
                  mse_item mae_item repr_proof_data stored
                  test_computer task_a test_data test_targets
                  (run_with_loss (Fin 2)) res self' Hcall)).
Defined.

End ComputerExamples.

(** ** The repository's tests, replayed on the embedding *)

Module TestInference.
Import Examples PyFloatFacts.

(** [test_add_and_claim_task]: one task is added; it is fetched; the claim
    returns it; nothing is pending afterwards. *)
Example test_add_and_claim_task :
  let queue := Queue.add_task (Queue.init "http://localhost:8545") task_b in
  List.length (fst (Queue.fetch_tasks queue)) = 1%nat
  /\ exists queue',
       Queue.claim_task queue "task_002" = Ok (Some task_b, queue')
       /\ List.length (fst (Queue.fetch_tasks queue')) = 0%nat.
Proof.
  split; [reflexivity|]. eexists. split; reflexivity.
Qed.

Lemma hex_length (bs : bytes) : String.length (hex bs) = (2 * List.length bs)%nat.
Proof. induction bs as [|b bs IH]; simpl; [reflexivity | rewrite IH; lia]. Qed.

(** [test_gradient_hashing]: with a digest of 32 bytes, the hash of a
    gradient dict has 64 characters. *)
Lemma test_gradient_hashing
    (tensor : Type) (tobytes : tensor -> bytes) (sha256 : bytes -> bytes)
    (gradients : dict tensor) :
  (forall data, List.length (sha256 data) = 32%nat) ->
  exists digest,
    hash_gradients tobytes sha256 gradients = Ok digest
    /\ String.length digest = 64%nat.
Proof.
  intros Hlen. unfold hash_gradients.
  destruct (hash_loop_total tensor tobytes gradients (sorted (keys gradients)))
    with (h := hasher_new) as [h ->].
  - intros name Hn. eapply Permutation_in; [|exact Hn].
    symmetry. apply SortFacts.sorted_is_Permutation.
  - eexists. split; [reflexivity|].
    unfold hexdigest. rewrite hex_length, Hlen. reflexivity.
Qed.

(** The names are hashed in ascending order, whatever the order of the
    dict. *)
Example hash_gradients_feeds_sorted_names :
  hash_gradients tobytes sha256 gradients_wb
  = Ok (hex (encode "layer1.bias" ++ [Byte.x01]
             ++ encode "layer1.weight" ++ [Byte.x01; Byte.x01])).
Proof. reflexivity. Qed.

(** A dict of one tensor whose norm is [r], without a previous loss: the
    score is the magnitude sub-score of [r]. *)
Lemma quality_of_one_norm
    (tensor : Type) (norm_item : tensor -> pyfloat) (name : string) (t : tensor)
    (r : R) (loss : pyfloat) :
  norm_item t = Fin r ->
  (0 <= r)%R ->
  (r * r <= float_max)%R ->
  compute_gradient_quality norm_item [(name, t)] loss None
  = Ok (arithmetic_mean [spec_magnitude (Fin r)]).
Proof.
  intros Hnorm Hr Hfit.
  assert (Htotal : spec_total_norm norm_item [(name, t)] = Fin r).
  { unfold spec_total_norm, sum_of_squared_norms. simpl. rewrite Hnorm. simpl.
    destruct (Rltb (0 + r * r) 0) eqn:E; [apply Rltb_true in E; nra|].
    replace (0 + r * r)%R with (r * r)%R by lra.
    rewrite (sqrt_square r Hr). reflexivity. }
  assert (Hfits : squares_fit norm_item [(name, t)] = true).
  { unfold squares_fit. simpl. rewrite Hnorm. simpl.
    rewrite (proj2 (Rltb_false float_max (r * r)) Hfit). reflexivity. }
  unfold compute_gradient_quality.
  rewrite norm_loop_spec, Hfits. cbn [bind].
  rewrite total_norm_spec, Htotal. cbn [bind app].
  rewrite magnitude_score_spec. cbn [bind app].
  apply mean_spec. simpl. lia.
Qed.

(** [test_gradient_quality]: gradients of norm 1 score 1, gradients of norm
    0.0001 score 0.001, which is less. *)
Example test_gradient_quality
    (tensor : Type) (norm_item : tensor -> pyfloat) (good small : tensor) :
  norm_item good = Fin 1 ->
  norm_item small = Fin 0.0001 ->
  compute_gradient_quality norm_item [("layer1.weight"%string, good)] (Fin 0.5) None
  = Ok (Fin 1)
  /\ compute_gradient_quality norm_item [("layer1.weight"%string, small)] (Fin 0.5) None
     = Ok (Fin 0.001).
Proof.
  intros Hgood Hsmall.
  pose proof (float_max_above 1 ltac:(lia)) as Hmax.
  rewrite (quality_of_one_norm tensor norm_item _ good 1 _ Hgood) by lra.
  rewrite (quality_of_one_norm tensor norm_item _ small 0.0001 _ Hsmall) by lra.
  unfold arithmetic_mean, spec_magnitude, of_nat.
  split; fin; do 2 f_equal; lra.
Qed.

(** With a previous loss equal to the loss, finite and positive, the
    improvement sub-score is 0.5. *)
Lemma improvement_of_equal_losses (l : R) :
  (0 < l)%R -> spec_improvement (Fin l) (Fin l) = Fin 0.5.
Proof.
  intros Hl. unfold spec_improvement, spec_min, spec_max. simpl.
  rewrite (proj2 (Rltb_true 0 l) Hl). simpl.
  replace ((l + - l) / l + 0.5)%R with 0.5%R by (field; lra).
  fin.
Qed.

(** A NaN loss after a positive loss: the improvement sub-score is 0. *)
Example improvement_of_nan_loss : spec_improvement NaN (Fin 1) = Fin 0.
Proof. unfold spec_improvement, spec_min, spec_max. fin. Qed.

End TestInference.

(** * Further properties of the code *)

(** ** TaskQueue: claims, additions, and the task endpoints *)

Module QueueMore.
Import Queue QueueFacts.

Lemma without_first_split (id : string) (t : TrainingTask) (l1 l2 : list TrainingTask) :
  task_id t = id ->
  Forall (fun u => task_id u <> id) l1 ->
  without_first id (l1 ++ t :: l2) = l1 ++ l2.
Proof.
  intros Hid Hall. induction Hall as [|u l1 Hu _ IH]; simpl.
  - rewrite (proj2 (String.eqb_eq _ _) Hid). reflexivity.
  - rewrite (proj2 (String.eqb_neq _ _) Hu), IH. reflexivity.
Qed.

(** A claim in one equation: it raises nothing, returns what the loop
    finds, and leaves the pending list without its first task of the id. *)
Lemma claim_task_eq (q : TaskQueue) (id : string) :
  claim_task q id
  = Ok (match find_task id (pending_tasks q) with
        | Some t =>
            (Some t, {| rpc_endpoint := rpc_endpoint q;
                        pending_tasks := without_first id (pending_tasks q);
                        active_task := Some t |})
        | None => (None, q)
        end).
Proof.
  destruct (claim_task_cases q id)
    as [[Hnone Hc]|(t & l1 & l2 & Hfind & Hid & Hl & Hall & Hc)].
  - rewrite Hc, Hnone. reflexivity.
  - rewrite Hc, Hfind, Hl, (without_first_split id t l1 l2 Hid Hall). reflexivity.
Qed.

Lemma find_task_app (id : string) (l1 l2 : list TrainingTask) :
  find_task id (l1 ++ l2)
  = match find_task id l1 with
    | Some t => Some t
    | None => find_task id l2
    end.
Proof.
  induction l1 as [|u l1 IH]; simpl; [reflexivity|].
  destruct (String.eqb (task_id u) id); [reflexivity | exact IH].
Qed.

Lemma without_first_app (id : string) (l1 l2 : list TrainingTask) :
  without_first id (l1 ++ l2)
  = match find_task id l1 with
    | Some _ => without_first id l1 ++ l2
    | None => l1 ++ without_first id l2
    end.
Proof.
  induction l1 as [|u l1 IH]; simpl; [reflexivity|].
  destruct (String.eqb (task_id u) id); [reflexivity|].
  rewrite IH. destruct (find_task id l1); reflexivity.
Qed.

Lemma find_task_without_first (a b : string) (l : list TrainingTask) :
  a <> b -> find_task b (without_first a l) = find_task b l.
Proof.
  intros Hab. induction l as [|u l IH]; simpl; [reflexivity|].
  destruct (String.eqb (task_id u) a) eqn:Ea.
  - apply String.eqb_eq in Ea.
    assert (Eb : String.eqb (task_id u) b = false)
      by (apply String.eqb_neq; congruence).
    rewrite Eb. reflexivity.
  - simpl. destruct (String.eqb (task_id u) b); [reflexivity | exact IH].
Qed.

Lemma without_first_comm (a b : string) (l : list TrainingTask) :
  without_first a (without_first b l) = without_first b (without_first a l).
Proof.
  destruct (String.eqb a b) eqn:Eab; [apply String.eqb_eq in Eab; subst; reflexivity|].
  apply String.eqb_neq in Eab.
  induction l as [|u l IH]; simpl; [reflexivity|].
  destruct (String.eqb (task_id u) b) eqn:Eb, (String.eqb (task_id u) a) eqn:Ea;
    simpl; rewrite ?Ea, ?Eb; try reflexivity.
  - apply String.eqb_eq in Ea, Eb. congruence.
  - rewrite IH. reflexivity.
Qed.

Lemma without_first_ids (id : string) (l : list TrainingTask) :
  NoDup (map task_id l) -> NoDup (map task_id (without_first id l)).
Proof.
  induction l as [|u l IH]; simpl; [trivial|].
  intros Hnd. inversion Hnd as [|? ? Hnot Hrest]; subst.
  destruct (String.eqb (task_id u) id); [exact Hrest|].
  simpl. constructor; [|exact (IH Hrest)].
  intros Hin. apply Hnot. clear - Hin.
  induction l as [|v l IHl]; simpl in *; [contradiction|].
  destruct (String.eqb (task_id v) id); simpl in Hin; [right; exact Hin|].
  destruct Hin as [Hin|Hin]; [left; exact Hin | right; exact (IHl Hin)].
Qed.

(** X1: a task added under an id that no pending task has is what the
    next claim of that id returns, and the claim leaves the pending list as
    it was before the addition. *)
Theorem add_task_then_claim (q : TaskQueue) (t : TrainingTask) :
  (forall u, In u (pending_tasks q) -> task_id u <> task_id t) ->
  claim_task (add_task q t) (task_id t)
  = Ok (Some t, {| rpc_endpoint := rpc_endpoint q;
                   pending_tasks := pending_tasks q;
                   active_task := Some t |}).
Proof.
  intros Hnew. apply find_task_None in Hnew.
  rewrite claim_task_eq. simpl.
  rewrite find_task_app, without_first_app, Hnew. simpl.
  rewrite String.eqb_refl, app_nil_r. reflexivity.
Qed.

Lemma add_task_then_claim_witness :
  (forall u, In u (pending_tasks (init "http://localhost:8545")) ->
             task_id u <> task_id Examples.task_a)
  /\ claim_task (add_task (init "http://localhost:8545") Examples.task_a)
                (task_id Examples.task_a)
     = Ok (Some Examples.task_a,
           {| rpc_endpoint := "http://localhost:8545";
              pending_tasks := [];
              active_task := Some Examples.task_a |}).
Proof.
  assert (Hnew : forall u, In u (pending_tasks (init "http://localhost:8545")) ->
                           task_id u <> task_id Examples.task_a)
    by (intros u []).
  split; [exact Hnew|].
  exact (add_task_then_claim (init "http://localhost:8545") Examples.task_a Hnew).
Defined.

(** X2: tasks are claimed oldest first.  When a pending task already has
    the id of a task that is added, the next claim of the id returns the
    pending one, and the added task stays pending, last in the list. *)
Theorem claim_is_oldest_first (q : TaskQueue) (t older : TrainingTask) :
  find_task (task_id t) (pending_tasks q) = Some older ->
  exists q',
    claim_task (add_task q t) (task_id t) = Ok (Some older, q')
    /\ pending_tasks q' = without_first (task_id t) (pending_tasks q) ++ [t].
Proof.
  intros Hfind. rewrite claim_task_eq. simpl.
  rewrite find_task_app, without_first_app, Hfind.
  eexists. split; reflexivity.
Qed.

Lemma claim_is_oldest_first_witness :
  let newer :=
    {| task_id := "task_001"; model_id := "other_model"; dataset_cid := "ipfs://b";
       batch_start := 64; batch_end := 96; objective_hash := "def456";
       deadline := 70; reward := 5 |} in
  find_task (task_id newer) (pending_tasks Examples.queue_ab) = Some Examples.task_a
  /\ exists q',
       claim_task (add_task Examples.queue_ab newer) "task_001"
       = Ok (Some Examples.task_a, q')
       /\ pending_tasks q' = [Examples.task_b; newer].
Proof.
  intros newer.
  assert (Hfind : find_task (task_id newer) (pending_tasks Examples.queue_ab)
                  = Some Examples.task_a) by reflexivity.
  split; [exact Hfind|].
  exact (claim_is_oldest_first Examples.queue_ab newer Examples.task_a Hfind).
Defined.

(** X3: the pending ids stay distinct.  If no two pending tasks share an
    id, this is still so after any claim, after any submit, and after the
    addition of a task whose id is not pending. *)
Theorem distinct_ids_are_kept (q : TaskQueue) :
  NoDup (map task_id (pending_tasks q)) ->
  (forall id r q', claim_task q id = Ok (r, q') ->
                   NoDup (map task_id (pending_tasks q')))
  /\ (forall res, NoDup (map task_id (pending_tasks (snd (submit_result q res)))))
  /\ (forall t, ~ In (task_id t) (map task_id (pending_tasks q)) ->
                NoDup (map task_id (pending_tasks (add_task q t)))).
Proof.
  intros Hnd. split; [|split].
  - intros id r q'. rewrite claim_task_eq.
    destruct (find_task id (pending_tasks q)); intros [= _ <-]; simpl.
    + apply without_first_ids. exact Hnd.
    + exact Hnd.
  - intros res. exact Hnd.
  - intros t Hnew. simpl. rewrite map_app. simpl.
    apply NoDup_app_remove_l with (l := []). simpl.
    apply Permutation_NoDup with (l := task_id t :: map task_id (pending_tasks q)).
    + apply Permutation_cons_append.
    + constructor; assumption.
Qed.

Lemma distinct_ids_are_kept_witness :
  NoDup (map task_id (pending_tasks Examples.queue_ab))
  /\ forall id r q', claim_task Examples.queue_ab id = Ok (r, q') ->
                     NoDup (map task_id (pending_tasks q')).
Proof.
  assert (Hnd : NoDup (map task_id (pending_tasks Examples.queue_ab))).
  { simpl. repeat constructor; simpl; intuition discriminate. }
  split; [exact Hnd|].
  exact (proj1 (distinct_ids_are_kept Examples.queue_ab Hnd)).
Defined.

(** X4: claims of two different ids do not disturb each other.  If a claim
    of [a] and then a claim of [b] both return a task, the claims made in
    the other order return the same two tasks and leave the same pending
    list. *)
Theorem claims_of_different_ids_commute
    (q qa qab : TaskQueue) (a b : string) (ta tb : TrainingTask) :
  a <> b ->
  claim_task q a = Ok (Some ta, qa) ->
  claim_task qa b = Ok (Some tb, qab) ->
  exists qb qba,
    claim_task q b = Ok (Some tb, qb)
    /\ claim_task qb a = Ok (Some ta, qba)
    /\ pending_tasks qba = pending_tasks qab.
Proof.
  intros Hab. rewrite !claim_task_eq.
  destruct (find_task a (pending_tasks q)) as [ta'|] eqn:Ha; [|discriminate].
  intros [= -> <-]. simpl.
  rewrite (find_task_without_first a b _ Hab).
  destruct (find_task b (pending_tasks q)) as [tb'|] eqn:Hb; [|discriminate].
  intros [= -> <-]. simpl.
  eexists. eexists. split; [reflexivity|].
  rewrite claim_task_eq. simpl.
  rewrite (find_task_without_first b a _ (not_eq_sym Hab)), Ha.
  split; [reflexivity|]. simpl. apply without_first_comm.
Qed.

Lemma claims_of_different_ids_commute_witness :
  exists qa qab qb qba,
    "task_001"%string <> "task_002"%string
    /\ claim_task Examples.queue_ab "task_001" = Ok (Some Examples.task_a, qa)
    /\ claim_task qa "task_002" = Ok (Some Examples.task_b, qab)
    /\ claim_task Examples.queue_ab "task_002" = Ok (Some Examples.task_b, qb)
    /\ claim_task qb "task_001" = Ok (Some Examples.task_a, qba)
    /\ pending_tasks qba = pending_tasks qab.
Proof.
  assert (Hab : "task_001"%string <> "task_002"%string) by discriminate.
  eexists. eexists.
  destruct (claims_of_different_ids_commute
              Examples.queue_ab _ _ "task_001" "task_002"
              Examples.task_a Examples.task_b Hab eq_refl eq_refl)
    as (qb & qba & Hb & Ha & Hp).
  exists qb, qba. repeat split; try assumption; reflexivity.
Defined.

End QueueMore.

(** ** The task endpoints *)

Module ServerMore.
Import Queue QueueFacts QueueMore Server.

(** X5: the claim endpoint on a started server.  It answers 404 and
    changes nothing when no pending task has the id; it answers with the
    body [status: claimed] and the id, and [GET /tasks] then lists one task
    fewer, when a pending task has the id; and no exception escapes it. *)
Theorem claim_endpoint_answers (queue : TaskQueue) (id : string) :
  ((forall u, In u (pending_tasks queue) -> task_id u <> id) ->
   claim_task_endpoint (Some queue) id
   = (HTTPException 404 ("Task not found: " ++ id), Some queue))
  /\ ((exists u, In u (pending_tasks queue) /\ task_id u = id) ->
      exists queue' before after,
        claim_task_endpoint (Some queue) id
        = (Response [("status"%string, "claimed"%string); ("task_id"%string, id)],
           Some queue')
        /\ get_pending_tasks (Some queue) = Response before
        /\ get_pending_tasks (Some queue') = Response after
        /\ List.length before = S (List.length after)).
Proof.
  unfold claim_task_endpoint. rewrite claim_task_eq. split.
  - intros Hnone. apply find_task_None in Hnone. rewrite Hnone. reflexivity.
  - intros (u & Hin & Hid).
    destruct (find_task_In id _ u Hin Hid) as [t Hfind]. rewrite Hfind.
    eexists. eexists. eexists. split; [reflexivity|].
    split; [reflexivity|]. split; [reflexivity|].
    simpl. rewrite !length_map.
    destruct (find_task_Some _ _ _ Hfind) as [Ht (l1 & l2 & Hl & Hall)].
    rewrite Hl, (without_first_split id t l1 l2 Ht Hall), !length_app.
    simpl. lia.
Qed.

End ServerMore.

(** ** Dicts: assignment, lookup and deletion *)

Module DictMore.

Lemma getitem_setitem_eq {V : Type} (d : dict V) (k : string) (v : V) :
  getitem (setitem d k v) k = Ok v.
Proof.
  induction d as [|[k' v'] d IH]; simpl.
  - rewrite String.eqb_refl. reflexivity.
  - destruct (String.eqb k' k) eqn:E; simpl; rewrite E; [reflexivity | exact IH].
Qed.

Lemma getitem_setitem_ne {V : Type} (d : dict V) (k k' : string) (v : V) :
  k <> k' -> getitem (setitem d k v) k' = getitem d k'.
Proof.
  intros Hne. induction d as [|[k0 v0] d IH]; simpl.
  - rewrite (proj2 (String.eqb_neq k k') Hne). reflexivity.
  - destruct (String.eqb k0 k) eqn:E; simpl.
    + apply String.eqb_eq in E. subst k0.
      rewrite (proj2 (String.eqb_neq k k') Hne). reflexivity.
    + destruct (String.eqb k0 k'); [reflexivity | exact IH].
Qed.

Lemma keys_setitem {V : Type} (d : dict V) (k : string) (v : V) :
  keys (setitem d k v) = if contains d k then keys d else keys d ++ [k].
Proof.
  unfold keys, contains. induction d as [|[k' v'] d IH]; simpl; [reflexivity|].
  destruct (String.eqb k' k) eqn:E; simpl; [reflexivity|].
  rewrite IH. destruct (existsb _ d); reflexivity.
Qed.

Lemma contains_In {V : Type} (d : dict V) (k : string) :
  contains d k = true <-> In k (keys d).
Proof.
  unfold contains, keys. induction d as [|[k' v'] d IH]; simpl.
  - split; [discriminate | intros []].
  - rewrite orb_true_iff, IH, String.eqb_eq. tauto.
Qed.

Lemma contains_false {V : Type} (d : dict V) (k : string) :
  contains d k = false <-> ~ In k (keys d).
Proof.
  rewrite <- contains_In. destruct (contains d k); split; congruence.
Qed.

Lemma setitem_well_formed {V : Type} (d : dict V) (k : string) (v : V) :
  well_formed_dict d -> well_formed_dict (setitem d k v).
Proof.
  unfold well_formed_dict. intros Hwf. rewrite keys_setitem.
  destruct (contains d k) eqn:E; [exact Hwf|].
  apply contains_false in E.
  apply Permutation_NoDup with (l := k :: keys d).
  - apply Permutation_cons_append.
  - constructor; assumption.
Qed.

Lemma contains_setitem {V : Type} (d : dict V) (k k' : string) (v : V) :
  contains (setitem d k v) k' = String.eqb k k' || contains d k'.
Proof.
  unfold contains. induction d as [|[k0 v0] d IH]; simpl.
  - reflexivity.
  - destruct (String.eqb k0 k) eqn:E; simpl.
    + apply String.eqb_eq in E. subst k0.
      destruct (String.eqb k k'); reflexivity.
    + rewrite IH. destruct (String.eqb k0 k'), (String.eqb k k'); reflexivity.
Qed.

Lemma getitem_contains {V : Type} (d : dict V) (k : string) :
  contains d k = true <-> exists v, getitem d k = Ok v.
Proof.
  unfold contains. induction d as [|[k' v'] d IH]; simpl.
  - split; [discriminate | intros [v Hv]; discriminate].
  - destruct (String.eqb k' k); simpl; [|exact IH].
    split; [eauto | reflexivity].
Qed.

Lemma delitem_contains {V : Type} (d : dict V) (k : string) :
  contains d k = true -> exists rest, delitem d k = Ok rest.
Proof.
  unfold contains. induction d as [|[k' v'] d IH]; simpl; [discriminate|].
  destruct (String.eqb k' k); simpl; [eauto|].
  intros H. destruct (IH H) as [rest ->]. simpl. eauto.
Qed.

Lemma delitem_gone {V : Type} (d rest : dict V) (k : string) :
  well_formed_dict d -> delitem d k = Ok rest ->
  contains rest k = false
  /\ well_formed_dict rest
  /\ forall k', k' <> k -> getitem rest k' = getitem d k'.
Proof.
  unfold well_formed_dict. revert rest.
  induction d as [|[k' v'] d IH]; simpl; intros rest Hwf; [discriminate|].
  inversion Hwf as [|? ? Hnot Hrest]; subst.
  destruct (String.eqb k' k) eqn:E.
  - intros [= <-]. apply String.eqb_eq in E. subst k'.
    split; [apply contains_false; exact Hnot|]. split; [exact Hrest|].
    intros k'' Hne. rewrite (proj2 (String.eqb_neq k k'')); [reflexivity|].
    congruence.
  - destruct (delitem d k) as [r|] eqn:Hdel; simpl; [|discriminate].
    intros [= <-]. destruct (IH r Hrest eq_refl) as (Hgone & Hwf' & Hother).
    split; [|split].
    + unfold contains in *. simpl. rewrite E, Hgone. reflexivity.
    + simpl. constructor; [|exact Hwf'].
      intros Hin. apply Hnot.
      apply contains_In in Hin. apply getitem_contains in Hin.
      destruct Hin as [v Hv].
      apply String.eqb_neq in E.
      rewrite (Hother k' E) in Hv.
      apply contains_In. apply getitem_contains. eauto.
    + intros k'' Hne. simpl. destruct (String.eqb k' k''); [reflexivity|].
      apply Hother. exact Hne.
Qed.

End DictMore.

(** ** ModelServer *)

Module ModelServerMore.
Import ModelServer DictMore.

Lemma contains_after_delitem {V : Type} (d rest : dict V) (k k' : string) :
  well_formed_dict d -> delitem d k = Ok rest -> k' <> k ->
  contains rest k' = contains d k'.
Proof.
  intros Hwf Hdel Hne.
  destruct (delitem_gone d rest k Hwf Hdel) as (_ & _ & Hother).
  destruct (contains rest k') eqn:E1, (contains d k') eqn:E2; try reflexivity.
  - apply getitem_contains in E1. destruct E1 as [v Hv].
    rewrite (Hother k' Hne) in Hv.
    assert (H : contains d k' = true) by (apply getitem_contains; eauto).
    congruence.
  - apply getitem_contains in E2. destruct E2 as [v Hv].
    rewrite <- (Hother k' Hne) in Hv.
    assert (H : contains rest k' = true) by (apply getitem_contains; eauto).
    congruence.
Qed.

(** X6: load, run, unload.  Once a model is loaded, inference on it
    answers; unloading it returns True, after which inference on it raises
    ValueError and a second unload returns False and changes nothing; the
    other models are loaded or not as before the load. *)
Theorem load_run_unload
    (self : ModelServer) (id cid : string) (now : pyfloat) :
  well_formed_dict (loaded_models self) ->
  let loaded := snd (load_model self id cid now) in
  run_inference loaded id = Ok [("result"%string, "simulated"%string)]
  /\ exists unloaded,
       unload_model loaded id = Ok (true, unloaded)
       /\ run_inference unloaded id
          = Raise (ValueError ("Model " ++ id ++ " not loaded"))
       /\ unload_model unloaded id = Ok (false, unloaded)
       /\ forall other, other <> id ->
            contains (loaded_models unloaded) other
            = contains (loaded_models self) other.
Proof.
  intros Hwf loaded.
  assert (Hin : contains (loaded_models loaded) id = true).
  { unfold loaded. simpl. rewrite contains_setitem, String.eqb_refl. reflexivity. }
  assert (Hwf' : well_formed_dict (loaded_models loaded)).
  { unfold loaded. simpl. apply setitem_well_formed. exact Hwf. }
  split; [unfold run_inference; rewrite Hin; reflexivity|].
  destruct (delitem_contains _ _ Hin) as [rest Hdel].
  exists {| loaded_models := rest |}.
  destruct (delitem_gone _ _ _ Hwf' Hdel) as (Hgone & _ & _).
  split; [unfold unload_model; rewrite Hin, Hdel; reflexivity|].
  split; [unfold run_inference; simpl; rewrite Hgone; reflexivity|].
  split; [unfold unload_model; simpl; rewrite Hgone; reflexivity|].
  intros other Hne. simpl.
  rewrite (contains_after_delitem _ _ id other Hwf' Hdel Hne).
  unfold loaded. simpl. rewrite contains_setitem.
  rewrite (proj2 (String.eqb_neq id other)) by congruence. reflexivity.
Qed.

Lemma load_run_unload_witness :
  well_formed_dict (loaded_models init)
  /\ run_inference (snd (load_model init "model_001" "Qm01" (Fin 5))) "model_001"
     = Ok [("result"%string, "simulated"%string)].
Proof.
  assert (Hwf : well_formed_dict (loaded_models init)) by constructor.
  split; [exact Hwf|].
  exact (proj1 (load_run_unload init "model_001" "Qm01" (Fin 5) Hwf)).
Defined.

(** X7: [unload_model] never raises: it answers whether the model was
    loaded, and afterwards the model is not loaded. *)
Theorem unload_model_answers (self : ModelServer) (id : string) :
  well_formed_dict (loaded_models self) ->
  exists after,
    unload_model self id = Ok (contains (loaded_models self) id, after)
    /\ contains (loaded_models after) id = false
    /\ well_formed_dict (loaded_models after).
Proof.
  intros Hwf. unfold unload_model.
  destruct (contains (loaded_models self) id) eqn:Hin.
  - destruct (delitem_contains _ _ Hin) as [rest Hdel]. rewrite Hdel.
    destruct (delitem_gone _ _ _ Hwf Hdel) as (Hgone & Hwf' & _).
    exists {| loaded_models := rest |}. repeat split; assumption.
  - exists self. repeat split; assumption.
Qed.

Lemma unload_model_answers_witness :
  let server :=
    snd (load_model (snd (load_model init "model_001" "Qm01" (Fin 5)))
                    "model_002" "Qm02" (Fin 6)) in
  well_formed_dict (loaded_models server)
  /\ exists after,
       unload_model server "model_001" = Ok (true, after)
       /\ contains (loaded_models after) "model_001" = false
       /\ unload_model after "model_001" = Ok (false, after).
Proof.
  intros server.
  assert (Hwf : well_formed_dict (loaded_models server)).
  { unfold well_formed_dict. simpl. repeat constructor; simpl; intuition discriminate. }
  split; [exact Hwf|].
  destruct (unload_model_answers server "model_001" Hwf)
    as (after & Hun & Hgone & Hwf').
  assert (Hloaded : contains (loaded_models server) "model_001" = true)
    by reflexivity.
  rewrite Hloaded in Hun.
  exists after. split; [exact Hun|]. split; [exact Hgone|].
  destruct (unload_model_answers after "model_001" Hwf') as (after' & Hun' & _).
  rewrite Hgone in Hun'. rewrite Hun'. f_equal. f_equal.
  unfold unload_model in Hun'. rewrite Hgone in Hun'.
  injection Hun' as <-. reflexivity.
Defined.

End ModelServerMore.

(** ** DatasetLoader.get_batch *)

Module DatasetMore.
Import Dataset.

Lemma firstn_skipn_add {A : Type} (l : list A) (i j k : nat) :
  firstn j (skipn i l) ++ firstn k (skipn (i + j) l) = firstn (j + k) (skipn i l).
Proof.
  rewrite Nat.add_comm, <- skipn_skipn.
  generalize (skipn i l). clear l i. intros l. revert l.
  induction j as [|j IH]; intros l; simpl; [reflexivity|].
  destruct l as [|x l]; simpl.
  - rewrite firstn_nil. reflexivity.
  - rewrite IH. reflexivity.
Qed.

Lemma nth_error_firstn_skipn {A : Type} (l : list A) (i j k : nat) :
  (k < j)%nat -> nth_error (firstn j (skipn i l)) k = nth_error l (i + k).
Proof.
  intros Hk. rewrite nth_error_firstn.
  destruct (Nat.ltb k j) eqn:E; [|apply Nat.ltb_ge in E; lia].
  rewrite nth_error_skipn. reflexivity.
Qed.

Lemma clamp_nonneg (n i : Z) : (0 <= i)%Z -> clamp_index n i = Z.min i n.
Proof.
  intros Hi. unfold clamp_index.
  destruct (i <? 0)%Z eqn:E; [apply Z.ltb_lt in E; lia | reflexivity].
Qed.

(** With bounds that are not negative, the slice runs from
    [min start n] to [min stop n]. *)
Lemma py_slice_nonneg {A : Type} (rows : list A) (start stop : Z) :
  (0 <= start)%Z -> (0 <= stop)%Z ->
  py_slice rows start stop
  = firstn (Z.to_nat (Z.min stop (Z.of_nat (List.length rows)))
            - Z.to_nat (Z.min start (Z.of_nat (List.length rows))))
           (skipn (Z.to_nat (Z.min start (Z.of_nat (List.length rows)))) rows).
Proof.
  intros Hs He. unfold py_slice.
  rewrite (clamp_nonneg _ start Hs), (clamp_nonneg _ stop He).
  f_equal. lia.
Qed.

(** X8: a batch keeps rows and labels paired.  For a range inside the
    data, row [i] of the batch is row [batch_start + i] of the data and label
    [i] of the batch is label [batch_start + i] of the targets. *)
Theorem get_batch_keeps_pairs {A B : Type}
    (data : list A) (targets : list B) (batch_start batch_end : Z) (i : nat) :
  (0 <= batch_start)%Z ->
  (batch_end <= Z.of_nat (List.length data))%Z ->
  List.length targets = List.length data ->
  (Z.of_nat i < batch_end - batch_start)%Z ->
  nth_error (fst (get_batch data targets batch_start batch_end)) i
  = nth_error data (Z.to_nat batch_start + i)
  /\ nth_error (snd (get_batch data targets batch_start batch_end)) i
     = nth_error targets (Z.to_nat batch_start + i).
Proof.
  intros Hs He Hlen Hi. unfold get_batch. simpl.
  rewrite !py_slice_nonneg by lia. rewrite Hlen.
  rewrite !Z.min_l by lia.
  split; apply nth_error_firstn_skipn; lia.
Qed.

Lemma get_batch_keeps_pairs_witness :
  let data := [10; 11; 12; 13; 14]%Z in
  let targets := [true; false; true; false; true] in
  (0 <= 1)%Z
  /\ (3 <= Z.of_nat (List.length data))%Z
  /\ List.length targets = List.length data
  /\ (Z.of_nat 1 < 3 - 1)%Z
  /\ nth_error (fst (get_batch data targets 1 3)) 1 = Some 12%Z
  /\ nth_error (snd (get_batch data targets 1 3)) 1 = Some true.
Proof.
  intros data targets.
  assert (H1 : (0 <= 1)%Z) by lia.
  assert (H2 : (3 <= Z.of_nat (List.length data))%Z) by (simpl; lia).
  assert (H3 : List.length targets = List.length data) by reflexivity.
  assert (H4 : (Z.of_nat 1 < 3 - 1)%Z) by lia.
  destruct (get_batch_keeps_pairs data targets 1 3 1 H1 H2 H3 H4) as [Hd Ht].
  repeat split; try assumption.
Defined.

(** X9: the number of rows of a batch.  With bounds that are not negative
    a batch has [min batch_end n - min batch_start n] rows, or none when
    that is negative: a range that reaches beyond the data is cut at its end
    and a range that starts beyond it is empty, without an error. *)
Theorem get_batch_length {A B : Type}
    (data : list A) (targets : list B) (batch_start batch_end : Z) :
  (0 <= batch_start)%Z ->
  (0 <= batch_end)%Z ->
  Z.of_nat (List.length (fst (get_batch data targets batch_start batch_end)))
  = Z.max 0 (Z.min batch_end (Z.of_nat (List.length data))
             - Z.min batch_start (Z.of_nat (List.length data))).
Proof.
  intros Hs He. unfold get_batch. simpl.
  rewrite py_slice_nonneg by lia.
  rewrite length_firstn, length_skipn. lia.
Qed.

Lemma get_batch_length_witness :
  (0 <= 3)%Z /\ (0 <= 9)%Z
  /\ Z.of_nat (List.length (fst (get_batch [10; 11; 12; 13; 14]%Z
                                           [true; false; true; false; true] 3 9)))
     = 2%Z.
Proof.
  assert (H1 : (0 <= 3)%Z) by lia.
  assert (H2 : (0 <= 9)%Z) by lia.
  split; [exact H1|]. split; [exact H2|].
  exact (get_batch_length [10; 11; 12; 13; 14]%Z
                          [true; false; true; false; true] 3 9 H1 H2).
Defined.

(** X10: consecutive batches tile the data.  For
    [0 <= a <= b <= c], the batch [a, b) followed by the batch [b, c) is the
    batch [a, c), rows and labels alike. *)
Theorem get_batch_consecutive {A B : Type}
    (data : list A) (targets : list B) (a b c : Z) :
  (0 <= a <= b)%Z ->
  (b <= c)%Z ->
  fst (get_batch data targets a b) ++ fst (get_batch data targets b c)
  = fst (get_batch data targets a c)
  /\ snd (get_batch data targets a b) ++ snd (get_batch data targets b c)
     = snd (get_batch data targets a c).
Proof.
  intros Hab Hbc. unfold get_batch. simpl.
  assert (Htile : forall (T : Type) (rows : list T),
             py_slice rows a b ++ py_slice rows b c = py_slice rows a c).
  { intros T rows. rewrite !py_slice_nonneg by lia.
    set (ia := Z.to_nat (Z.min a (Z.of_nat (List.length rows)))).
    set (ib := Z.to_nat (Z.min b (Z.of_nat (List.length rows)))).
    set (ic := Z.to_nat (Z.min c (Z.of_nat (List.length rows)))).
    assert (Horder : (ia <= ib <= ic)%nat) by lia.
    replace (skipn ib rows) with (skipn (ia + (ib - ia)) rows) by (f_equal; lia).
    replace (ic - ia)%nat with ((ib - ia) + (ic - ib))%nat by lia.
    apply firstn_skipn_add. }
  split; apply Htile.
Qed.

Lemma get_batch_consecutive_witness :
  (0 <= 0 <= 2)%Z /\ (2 <= 4)%Z
  /\ fst (get_batch [10; 11; 12; 13; 14]%Z [true; false; true; false; true] 0 2)
     ++ fst (get_batch [10; 11; 12; 13; 14]%Z [true; false; true; false; true] 2 4)
     = fst (get_batch [10; 11; 12; 13; 14]%Z [true; false; true; false; true] 0 4).
Proof.
  assert (H1 : (0 <= 0 <= 2)%Z) by lia.
  assert (H2 : (2 <= 4)%Z) by lia.
  split; [exact H1|]. split; [exact H2|].
  exact (proj1 (get_batch_consecutive
                  [10; 11; 12; 13; 14]%Z [true; false; true; false; true]
                  0 2 4 H1 H2)).
Defined.

End DatasetMore.

(** ** [compute_gradient_quality]: the shape of the score *)

Section QualityMore.
Import PyFloatFacts.

Variable tensor : Type.
Variable norm_item : tensor -> pyfloat.

(** The score in terms of the total norm and the sub-scores, and the one
    exception. *)
Lemma quality_eq
    (gradients : dict tensor) (loss : pyfloat) (prev_loss : option pyfloat) :
  compute_gradient_quality norm_item gradients loss prev_loss
  = if squares_fit norm_item gradients
    then Ok (arithmetic_mean
               (spec_magnitude (spec_total_norm norm_item gradients)
                :: match prev_loss with
                   | Some p => if flt (Fin 0) p then [spec_improvement loss p] else []
                   | None => []
                   end))
    else Raise OverflowError.
Proof.
  unfold compute_gradient_quality. rewrite norm_loop_spec.
  destruct (squares_fit norm_item gradients); [|reflexivity].
  cbn [bind]. rewrite total_norm_spec. cbn [bind app].
  rewrite magnitude_score_spec. cbn [bind app].
  rewrite improvement_scores_spec. cbn [bind].
  apply mean_spec. apply improvement_length.
Qed.

Lemma quality_bounded
    (gradients : dict tensor) (loss : pyfloat) (prev_loss : option pyfloat)
    (score : pyfloat) :
  compute_gradient_quality norm_item gradients loss prev_loss = Ok score ->
  in_unit_interval score.
Proof.
  rewrite quality_eq.
  destruct (squares_fit norm_item gradients); [|discriminate].
  intros [= <-].
  apply (spec_quality_unit tensor norm_item gradients loss prev_loss).
Qed.

Lemma quality_raises_overflow
    (gradients : dict tensor) (loss : pyfloat) (prev_loss : option pyfloat)
    (e : exn) :
  compute_gradient_quality norm_item gradients loss prev_loss = Raise e ->
  e = OverflowError.
Proof.
  rewrite quality_eq.
  destruct (squares_fit norm_item gradients); [discriminate|].
  intros [= <-]. reflexivity.
Qed.

Lemma mean_of_one (x : pyfloat) : arithmetic_mean [x] = x.
Proof.
  unfold arithmetic_mean, of_nat. destruct x; fin.
Qed.

Lemma mean_of_two (m i : R) :
  arithmetic_mean [Fin m; Fin i] = Fin ((m + i) / 2).
Proof.
  unfold arithmetic_mean, of_nat. fin.
Qed.

(** The improvement sub-score of a finite loss after a finite positive
    loss, as a real number. *)
Lemma spec_improvement_finite (l p : R) :
  (0 < p)%R ->
  exists i,
    spec_improvement (Fin l) (Fin p) = Fin i
    /\ (0 <= i <= 1)%R
    /\ (l = p -> i = 0.5)%R
    /\ (l <= p / 2 -> i = 1)%R
    /\ (3 * p / 2 <= l -> i = 0)%R.
Proof.
  intros Hp. unfold spec_improvement, spec_min, spec_max. simpl.
  rewrite (proj2 (Rltb_true 0 p) Hp). simpl.
  set (q := ((p + - l) / p)%R).
  assert (Hq : (q * p = p - l)%R) by (unfold q; field; lra).
  repeat (progress cmp; simpl);
    eexists; (split; [reflexivity|]); repeat split; intros; subst; nra.
Qed.

Lemma spoiled_stays (total square : pyfloat) :
  spoiled total -> nonneg square -> spoiled (fadd total square).
Proof.
  unfold spoiled. intros [-> | ->] Hsq; destruct square; simpl in *; tauto.
Qed.

Lemma spoiled_starts (total x : pyfloat) :
  nonneg total -> is_finite x = false -> spoiled (fadd total (fsquare x)).
Proof.
  unfold spoiled. intros Htotal Hx.
  destruct x; try discriminate; destruct total; simpl in *; tauto.
Qed.

(** Once a norm that is not finite is among the tensors, the sum of the
    squares is [+inf] or NaN, whatever finite squares are added before and
    after it. *)
Lemma non_finite_sum (grads : list tensor) (g : tensor) :
  In g grads ->
  is_finite (norm_item g) = false ->
  forall start,
    nonneg start ->
    spoiled (fold_left (fun acc grad => fadd acc (fsquare (norm_item grad)))
                       grads start).
Proof.
  intros Hin Hg.
  assert (Hkeep : forall l total,
             spoiled total ->
             spoiled (fold_left (fun acc grad => fadd acc (fsquare (norm_item grad)))
                                l total)).
  { induction l as [|x l IH]; intros total Htotal; simpl; [exact Htotal|].
    apply IH. apply spoiled_stays; [exact Htotal | apply fsquare_nonneg]. }
  induction grads as [|x grads IH]; intros start Hstart; simpl; [contradiction|].
  destruct Hin as [->|Hin].
  - apply Hkeep. apply spoiled_starts; assumption.
  - apply (IH Hin). apply fadd_nonneg; [exact Hstart | apply fsquare_nonneg].
Qed.

(** X15: gradients that are not finite score 0.  If the norm of one tensor
    is NaN or infinite, every score returned without a previous loss is 0,
    and 0 is returned whenever the square of every norm is within the
    doubles. *)
Theorem non_finite_gradients_score_zero
    (gradients : dict tensor) (loss : pyfloat) (name : string) (g : tensor) :
  In (name, g) gradients ->
  is_finite (norm_item g) = false ->
  (forall score,
      compute_gradient_quality norm_item gradients loss None = Ok score ->
      score = Fin 0)
  /\ (squares_fit norm_item gradients = true ->
      compute_gradient_quality norm_item gradients loss None = Ok (Fin 0)).
Proof.
  intros Hin Hg.
  assert (Hval : In g (values gradients)).
  { unfold values. apply (in_map snd) in Hin. exact Hin. }
  assert (Hsum : spoiled (sum_of_squared_norms norm_item gradients)).
  { apply (non_finite_sum (values gradients) g Hval Hg). simpl. lra. }
  assert (Hzero : arithmetic_mean
                    [spec_magnitude (spec_total_norm norm_item gradients)]
                  = Fin 0).
  { rewrite mean_of_one. unfold spec_total_norm.
    destruct Hsum as [-> | ->]; unfold spec_magnitude, spec_max; fin. }
  rewrite quality_eq, Hzero.
  destruct (squares_fit norm_item gradients); split; congruence.
Qed.

End QualityMore.

Module QualityExamples.
Import Examples MoreExamples PyFloatFacts.

(** A tensor of norm [10 ^ 200]: its square is beyond the doubles, and
    the call raises the OverflowError of [** 2], whatever the losses. *)
Example overflowing_norm_raises (loss : pyfloat) (prev_loss : option pyfloat) :
  compute_gradient_quality norm_of (one_tensor (IZR (10 ^ 200))) loss prev_loss
  = Raise OverflowError.
Proof.
  assert (Hbig : Rltb float_max (IZR (10 ^ 200) * IZR (10 ^ 200)) = true).
  { apply Rltb_true. rewrite <- mult_IZR. unfold float_max.
    apply IZR_lt. reflexivity. }
  unfold compute_gradient_quality, one_tensor, norm_of.
  cbn [values map snd accumulate_norm py_pow2]. rewrite Hbig. reflexivity.
Qed.

Lemma non_finite_gradients_score_zero_witness :
  let gradients : dict pyfloat :=
    [("layer1.weight"%string, Fin 3); ("layer1.bias"%string, NaN);
     ("layer2.weight"%string, Fin 4)] in
  In ("layer1.bias"%string, NaN) gradients
  /\ is_finite NaN = false
  /\ compute_gradient_quality (fun x : pyfloat => x) gradients (Fin 0.5) None
     = Ok (Fin 0).
Proof.
  intros gradients.
  assert (Hin : In ("layer1.bias"%string, NaN) gradients)
    by (right; left; reflexivity).
  assert (Hnan : is_finite NaN = false) by reflexivity.
  assert (Hfit : squares_fit (fun x : pyfloat => x) gradients = true).
  { unfold squares_fit, gradients. cbn [values map snd forallb].
    rewrite !square_fits_small by lra. reflexivity. }
  split; [exact Hin|]. split; [exact Hnan|].
  exact (proj2 (non_finite_gradients_score_zero
                  pyfloat (fun x : pyfloat => x) gradients (Fin 0.5)
                  "layer1.bias" NaN Hin Hnan) Hfit).
Defined.

End QualityExamples.

(** ** [hash_gradients]: what the digest covers *)

Section HashMore.

Variable tensor : Type.
Variable tobytes : tensor -> bytes.
Variable sha256 : bytes -> bytes.

Lemma encode_app (a b : string) :
  encode (a ++ b)%string = (encode a ++ encode b)%list.
Proof.
  unfold encode, list_byte_of_string.
  induction a as [|c a IH]; simpl; [reflexivity|].
  f_equal. exact IH.
Qed.

Lemma string_length_app (a b : string) :
  String.length (a ++ b)%string = (String.length a + String.length b)%nat.
Proof. induction a as [|c a IH]; simpl; [reflexivity | rewrite IH; reflexivity]. Qed.

Lemma hash_gradients_one (name : string) (t : tensor) :
  hash_gradients tobytes sha256 [(name, t)]
  = Ok (hex (sha256 (encode name ++ tobytes t))).
Proof.
  unfold hash_gradients. simpl. rewrite String.eqb_refl. reflexivity.
Qed.

(** X16: the digest does not mark where a name ends and the bytes of its
    tensor begin.  A dict with one tensor under [name] and a dict with one
    tensor under a longer name have the same digest, whatever the digest
    function, when the bytes of the first tensor are the rest of the longer
    name followed by the bytes of the second tensor; the two dicts are
    different as soon as the names are. *)
Theorem hash_gradients_name_boundary
    (name rest : string) (t1 t2 : tensor) :
  tobytes t1 = (encode rest ++ tobytes t2)%list ->
  rest <> EmptyString ->
  hash_gradients tobytes sha256 [(name, t1)]
  = hash_gradients tobytes sha256 [((name ++ rest)%string, t2)]
  /\ [(name, t1)] <> [((name ++ rest)%string, t2)].
Proof.
  intros Hbytes Hrest. split.
  - rewrite !hash_gradients_one, Hbytes, encode_app, app_assoc. reflexivity.
  - intros [= Hname _]. apply Hrest.
    apply (f_equal String.length) in Hname.
    rewrite string_length_app in Hname.
    destruct rest; [reflexivity | simpl in Hname; lia].
Qed.

Lemma hex_is_lower_hex (bs : bytes) : is_lower_hex (hex bs).
Proof.
  unfold is_lower_hex. induction bs as [|b bs IH]; simpl; [constructor|].
  constructor; [|constructor; [|exact IH]];
    destruct b; vm_compute; tauto.
Qed.

Lemma hex_has_two_per_byte (bs : bytes) :
  String.length (hex bs) = (2 * List.length bs)%nat.
Proof. induction bs as [|b bs IH]; simpl; [reflexivity | rewrite IH; lia]. Qed.

(** X17: the form of the digest.  With a digest function of 32 bytes,
    [hash_gradients] returns 64 characters, each one of [0-9a-f]. *)
Theorem hash_gradients_is_64_hex (gradients : dict tensor) :
  (forall data, List.length (sha256 data) = 32%nat) ->
  exists digest,
    hash_gradients tobytes sha256 gradients = Ok digest
    /\ String.length digest = 64%nat
    /\ is_lower_hex digest.
Proof.
  intros Hlen. unfold hash_gradients.
  destruct (hash_loop_total tensor tobytes gradients (sorted (keys gradients)))
    with (h := hasher_new) as [h ->].
  - intros name Hn. eapply Permutation_in; [|exact Hn].
    symmetry. apply SortFacts.sorted_is_Permutation.
  - eexists. split; [reflexivity|]. unfold hexdigest. split.
    + rewrite hex_has_two_per_byte, Hlen. reflexivity.
    + apply hex_is_lower_hex.
Qed.

End HashMore.

Module HashMoreExamples.
Import Examples MoreExamples.

Lemma hash_gradients_name_boundary_witness :
  let rest := String (ascii_of_nat 1) EmptyString in
  tobytes [Fin 3; Fin 4] = (encode rest ++ tobytes [Fin 4])%list
  /\ rest <> EmptyString
  /\ hash_gradients tobytes sha256 [("w"%string, [Fin 3; Fin 4])]
     = hash_gradients tobytes sha256 [(("w" ++ rest)%string, [Fin 4])].
Proof.
  intros rest.
  assert (Hbytes : tobytes [Fin 3; Fin 4] = (encode rest ++ tobytes [Fin 4])%list)
    by reflexivity.
  assert (Hrest : rest <> EmptyString) by discriminate.
  split; [exact Hbytes|]. split; [exact Hrest|].
  exact (proj1 (hash_gradients_name_boundary
                  tensor tobytes sha256 "w" rest [Fin 3; Fin 4] [Fin 4]
                  Hbytes Hrest)).
Defined.

Lemma hash_gradients_is_64_hex_witness :
  (forall data, List.length (digest32 data) = 32%nat)
  /\ exists digest,
       hash_gradients tobytes digest32 gradients_wb = Ok digest
       /\ String.length digest = 64%nat.
Proof.
  assert (Hlen : forall data, List.length (digest32 data) = 32%nat)
    by (intros data; reflexivity).
  split; [exact Hlen|].
  destruct (hash_gradients_is_64_hex tensor tobytes digest32 gradients_wb Hlen)
    as (digest & Hd & Hl & _).
  exists digest. split; assumption.
Defined.

End HashMoreExamples.

(** ** GradientComputer: errors, metrics, verification, the registry *)

Section ComputerMore.
Import PyFloatFacts DictMore.

Variable tensor : Type.
Variable model : Type.
Variable norm_item : tensor -> pyfloat.
Variable tobytes : tensor -> bytes.
Variable sha256 : bytes -> bytes.
Variable slice : tensor -> Z -> Z -> tensor.
Variable count_correct : tensor -> tensor -> Z.
Variable size0 : tensor -> Z.
Variable mse_item : tensor -> tensor -> pyfloat.
Variable mae_item : tensor -> tensor -> pyfloat.
Variable repr_proof_data : string -> string -> pyfloat -> dict pyfloat -> Z -> bytes.
Variable stored : string -> option (ModelConfig * model).

Local Abbreviation compute :=
  (compute_gradients norm_item tobytes sha256 slice count_correct size0
                     mse_item mae_item repr_proof_data stored).
Local Abbreviation compute_metrics :=
  (_compute_metrics count_correct size0 mse_item mae_item).
Local Abbreviation verify := (verify_result sha256 repr_proof_data).
Local Abbreviation generate_proof := (_generate_proof sha256 repr_proof_data).
Local Abbreviation batch_of := (fun (task : TrainingTask) (t : tensor) =>
  slice t (batch_start task) (batch_end task)).

(** Decide the comparisons of two known strings. *)
Ltac eval_string_tests :=
  repeat match goal with
         | |- context [String.eqb ?a ?b] =>
             let v := eval vm_compute in (String.eqb a b) in
             change (String.eqb a b) with v
         end.

Lemma py_div_of_Z (x : pyfloat) (z : Z) :
  py_div x (of_Z z)
  = if Z.eqb z 0 then Raise ZeroDivisionError else Ok (fdiv_ieee x (of_Z z)).
Proof.
  unfold of_Z. destruct (Z.eqb z 0) eqn:E.
  - apply Z.eqb_eq in E. subst z. unfold py_div. cmp; simpl; try lra. reflexivity.
  - apply Z.eqb_neq in E. apply py_div_nonzero. apply not_0_IZR. exact E.
Qed.

(** [_compute_metrics] branch by branch. *)
Lemma compute_metrics_cases
    (self : GradientComputer model) (outputs targets : tensor) (id : string) :
  compute_metrics self outputs targets id
  = if accuracy_is_computed (registry self) id then
      if Z.eqb (size0 targets) 0 then Raise ZeroDivisionError
      else Ok [("accuracy"%string,
                fdiv_ieee (of_Z (count_correct outputs targets))
                          (of_Z (size0 targets)))]
    else
      match get_config (registry self) id with
      | Some config =>
          match task_type config with
          | REGRESSION =>
              Ok [("mse"%string, mse_item outputs targets);
                  ("mae"%string, mae_item outputs targets)]
          | _ => Ok []
          end
      | None => Ok []
      end.
Proof.
  unfold _compute_metrics, accuracy_is_computed.
  destruct (get_config (registry self) id) as [config|];
    [destruct (task_type config)|];
    eval_string_tests; cbv beta iota;
    try reflexivity;
    rewrite py_div_of_Z; destruct (Z.eqb (size0 targets) 0); reflexivity.
Qed.

Lemma compute_metrics_keys
    (self : GradientComputer model) (outputs targets : tensor) (id : string)
    (ms : dict pyfloat) :
  compute_metrics self outputs targets id = Ok ms ->
  keys ms = metric_names (registry self) id.
Proof.
  rewrite compute_metrics_cases. unfold accuracy_is_computed, metric_names.
  destruct (get_config (registry self) id) as [config|].
  - destruct (task_type config); simpl;
      try (destruct (Z.eqb (size0 targets) 0); [discriminate|]);
      intros [= <-]; reflexivity.
  - destruct (Z.eqb (size0 targets) 0); [discriminate|].
    intros [= <-]. reflexivity.
Qed.

(** A call once the model is loaded: the digest is there, and what is
    left is the score and the metrics. *)
Lemma compute_gradients_after_load
    (self : GradientComputer model) (task : TrainingTask)
    (data targets : tensor) (run : execution tensor model)
    (m : model) (reg : ModelRegistry model) :
  load_model stored (registry self) (model_id task) = (Some m, reg) ->
  let outputs := forward run m (batch_of task data) in
  let l := observed_loss slice self reg task data targets run m in
  let gradients := collect_gradients (named_parameters run m) [] in
  exists digest,
    hash_gradients tobytes sha256 gradients = Ok digest
    /\ compute self task data targets run
       = (score <- compute_gradient_quality norm_item gradients l (prev_loss self) ;;
          ms <- compute_metrics (loaded_computer self reg) outputs
                                (batch_of task targets) (model_id task) ;;
          let all :=
            setitem (setitem ms "loss" l) "compute_time"
                    (fsub (end_time run) (start_time run)) in
          Ok ({| result_task_id := task_id task;
                 gradient_hash := digest;
                 quality_score := score;
                 loss := l;
                 metrics := all;
                 proof := generate_proof task digest score all (proof_time run) |},
              {| registry := reg;
                 current_task := Some task;
                 prev_loss := Some l |}))%py.
Proof.
  intros Hload outputs l gradients.
  destruct (hash_gradients_total tensor tobytes sha256 gradients) as [digest Hdigest].
  exists digest. split; [exact Hdigest|].
  unfold compute_gradients. rewrite Hload.
  cbn [prev_loss registry current_task].
  fold gradients. unfold observed_loss, loaded_computer in l. fold l.
  destruct (compute_gradient_quality norm_item gradients l (prev_loss self));
    [|reflexivity].
  cbn [bind]. rewrite Hdigest. reflexivity.
Qed.

Lemma load_model_None
    (self : ModelRegistry model) (id : string) (reg : ModelRegistry model) :
  load_model stored self id = (None, reg) -> reg = self.
Proof.
  unfold load_model. destruct (getitem (models self) id); [discriminate|].
  destruct (stored id) as [[config m]|]; [discriminate|].
  intros [= <-]. reflexivity.
Qed.

Lemma guard_in_unit_interval (x : pyfloat) :
  fle (Fin 0) x && fle x (Fin 1) = true -> in_unit_interval x.
Proof.
  destruct x as [r| | |]; simpl; try discriminate.
  intros H. apply andb_prop in H. destruct H as [H0 H1].
  apply Rleb_true in H0, H1. exists r. split; [reflexivity | lra].
Qed.

(** X18: what [verify_result] accepts.  It returns True exactly when the
    result carries the id of the task and its score is a number between 0
    and 1; a NaN or infinite score is refused, and nothing else of the
    result or of the task is looked at. *)
Theorem verify_result_accepts_iff
    (self : GradientComputer model) (res : ComputeResult)
    (task : TrainingTask) (now : Z) :
  verify self res task now = true
  <-> result_task_id res = task_id task /\ in_unit_interval (quality_score res).
Proof.
  rewrite verify_result_guards, andb_true_iff, String.eqb_eq. split.
  - intros [Hid Hguard]. split; [exact Hid | exact (guard_in_unit_interval _ Hguard)].
  - intros [Hid Hscore]. split; [exact Hid | exact (in_unit_interval_guard _ Hscore)].
Qed.

(** X19: every result the computer returns passes verification against
    the task it was computed for, and against any task at all that has the
    same id, at any time and on any computer; against a task with another id
    it is refused. *)
Theorem computed_result_verifies
    (self : GradientComputer model) (task : TrainingTask)
    (data targets : tensor) (run : execution tensor model)
    (res : ComputeResult) (self' : GradientComputer model) :
  compute self task data targets run = Ok (res, self') ->
  forall (verifier : GradientComputer model) (task' : TrainingTask) (now : Z),
    verify verifier res task' now = String.eqb (task_id task) (task_id task').
Proof.
  intros Hcall verifier task' now.
  destruct (compute_gradients_inv _ _ _ _ _ _ _ _ _ _ _ _ _ _ _ _ _ _ _ Hcall)
    as (m & reg & _ & Hid & _ & Hscore & _).
  apply quality_bounded in Hscore.
  rewrite verify_result_guards, (in_unit_interval_guard _ Hscore), Hid.
  apply andb_true_r.
Qed.

(** X21: the empty batch.  Once the model is loaded, the call raises
    ZeroDivisionError exactly when the quality score was computed, the
    metrics are those of classification (the config of the model says so,
    or it has none) and the batch of targets has no row; the one other
    exception of the call is the OverflowError of the quality score. *)
Theorem empty_batch_is_ZeroDivisionError
    (self : GradientComputer model) (task : TrainingTask)
    (data targets : tensor) (run : execution tensor model)
    (m : model) (reg : ModelRegistry model) :
  load_model stored (registry self) (model_id task) = (Some m, reg) ->
  let quality :=
    compute_gradient_quality norm_item
      (collect_gradients (named_parameters run m) [])
      (observed_loss slice self reg task data targets run m) (prev_loss self) in
  (compute self task data targets run = Raise ZeroDivisionError
   <-> (exists score, quality = Ok score)
       /\ accuracy_is_computed reg (model_id task) = true
       /\ size0 (batch_of task targets) = 0%Z)
  /\ (forall e,
        compute self task data targets run = Raise e ->
        (e = OverflowError /\ quality = Raise OverflowError)
        \/ e = ZeroDivisionError).
Proof.
  intros Hload quality.
  destruct (compute_gradients_after_load self task data targets run m reg Hload)
    as (digest & _ & Heq).
  rewrite Heq. fold quality.
  pose proof (quality_raises_overflow tensor norm_item
                (collect_gradients (named_parameters run m) [])
                (observed_loss slice self reg task data targets run m)
                (prev_loss self)) as Hover.
  fold quality in Hover.
  destruct quality as [score|e0].
  - cbn [bind]. rewrite compute_metrics_cases. cbn [registry loaded_computer].
    destruct (accuracy_is_computed reg (model_id task)) eqn:Hacc.
    + destruct (Z.eqb (size0 (batch_of task targets)) 0) eqn:Hsize.
      * apply Z.eqb_eq in Hsize. split.
        -- split; [intros _; eauto | reflexivity].
        -- intros e [= <-]. right. reflexivity.
      * apply Z.eqb_neq in Hsize. split.
        -- split; [discriminate|]. intros (_ & _ & H0). contradiction.
        -- intros e H. discriminate H.
    + split.
      * split.
        -- destruct (get_config reg (model_id task)) as [config|];
             [destruct (task_type config)|]; discriminate.
        -- intros (_ & Hacc' & _). discriminate Hacc'.
      * intros e.
        destruct (get_config reg (model_id task)) as [config|];
          [destruct (task_type config)|]; discriminate.
  - cbn [bind]. rewrite (Hover e0 eq_refl). split.
    + split; [discriminate|]. intros ((score & H) & _). discriminate H.
    + intros e [= <-]. left. split; reflexivity.
Qed.

Lemma metric_names_facts (reg : ModelRegistry model) (id : string) :
  NoDup (metric_names reg id)
  /\ ~ In "loss"%string (metric_names reg id)
  /\ ~ In "compute_time"%string (metric_names reg id).
Proof.
  unfold metric_names.
  destruct (get_config reg id) as [config|]; [destruct (task_type config)|];
    (split; [repeat constructor; simpl; intuition discriminate
            |split; simpl; intuition discriminate]).
Qed.

(** X22: what the metrics of a result hold.  In every result the metrics
    read [loss] as the loss of the result and [compute_time] as the time
    between the two clock readings; before these two come [accuracy] for a
    classification model or one without config, [mse] and [mae] for a
    regression model, and nothing for the other task types. *)
Theorem result_metrics
    (self : GradientComputer model) (task : TrainingTask)
    (data targets : tensor) (run : execution tensor model)
    (res : ComputeResult) (self' : GradientComputer model) :
  compute self task data targets run = Ok (res, self') ->
  getitem (metrics res) "loss" = Ok (loss res)
  /\ getitem (metrics res) "compute_time"
     = Ok (fsub (end_time run) (start_time run))
  /\ keys (metrics res)
     = (metric_names (registry self') (model_id task)
        ++ ["loss"%string; "compute_time"%string])%list.
Proof.
  intros Hcall.
  destruct (load_model stored (registry self) (model_id task))
    as [[m|] reg] eqn:Hload;
    [|unfold compute_gradients in Hcall; rewrite Hload in Hcall; discriminate].
  destruct (compute_gradients_after_load self task data targets run m reg Hload)
    as (digest & _ & Heq).
  rewrite Heq in Hcall.
  destruct (compute_gradient_quality _ _ _ _) as [score|]; [|discriminate].
  cbn [bind] in Hcall.
  destruct (compute_metrics _ _ _ _) as [ms|] eqn:Hms; [|discriminate].
  cbn [bind] in Hcall. injection Hcall as <- <-.
  apply compute_metrics_keys in Hms. cbn [registry loaded_computer] in Hms.
  destruct (metric_names_facts reg (model_id task)) as (_ & Hloss & Htime).
  cbn [metrics loss registry].
  split; [|split].
  - rewrite getitem_setitem_ne by discriminate. apply getitem_setitem_eq.
  - apply getitem_setitem_eq.
  - rewrite !keys_setitem.
    assert (H1 : contains ms "loss" = false)
      by (apply contains_false; rewrite Hms; exact Hloss).
    rewrite H1.
    assert (H2 : contains (setitem ms "loss"
                             (observed_loss slice self reg task data targets run m))
                          "compute_time" = false).
    { rewrite contains_setitem. simpl.
      apply contains_false. rewrite Hms. exact Htime. }
    rewrite H2, Hms, <- app_assoc. reflexivity.
Qed.

End ComputerMore.

(** ** The gradient dict and the registry *)

Section GradientsAndRegistry.
Import DictMore.

Variable tensor : Type.
Variable model : Type.
Variable stored : string -> option (ModelConfig * model).

Lemma collect_gradients_keys (params : list (string * option tensor)) :
  forall acc,
    well_formed_dict acc ->
    well_formed_dict (collect_gradients params acc)
    /\ forall name,
         In name (keys (collect_gradients params acc))
         <-> In name (keys acc) \/ exists grad, In (name, Some grad) params.
Proof.
  induction params as [|[n [g|]] params IH]; intros acc Hwf; simpl.
  - split; [exact Hwf|]. intros name. split; [auto|].
    intros [H|[grad []]]. exact H.
  - destruct (IH (setitem acc n g) (setitem_well_formed acc n g Hwf)) as [Hwf' Hkeys].
    split; [exact Hwf'|]. intros name. rewrite Hkeys.
    rewrite <- !contains_In, contains_setitem, orb_true_iff, String.eqb_eq.
    split.
    + intros [[->|H]|[grad H]]; eauto.
    + intros [H|[grad [[= -> ->]|H]]]; eauto.
  - destruct (IH acc Hwf) as [Hwf' Hkeys].
    split; [exact Hwf'|]. intros name. rewrite Hkeys.
    split.
    + intros [H|[grad H]]; eauto.
    + intros [H|[grad [H|H]]]; [auto | discriminate H | eauto].
Qed.

Lemma find_name_fresh (params : list (string * option tensor)) (name : string) :
  ~ In name (map fst params) ->
  find (fun p => String.eqb (fst p) name) params = None.
Proof.
  induction params as [|[k o] params IH]; simpl; [reflexivity|].
  intros Hnot. destruct (String.eqb k name) eqn:E.
  - apply String.eqb_eq in E. exfalso. apply Hnot. left. exact E.
  - apply IH. intros Hin. apply Hnot. right. exact Hin.
Qed.

Lemma collect_gradients_value (params : list (string * option tensor)) :
  forall acc name,
    NoDup (map fst params) ->
    getitem (collect_gradients params acc) name
    = match find (fun p => String.eqb (fst p) name) params with
      | Some (_, Some grad) => Ok grad
      | _ => getitem acc name
      end.
Proof.
  induction params as [|[n o] params IH]; intros acc name Hnd; [reflexivity|].
  inversion Hnd as [|? ? Hnot Hrest]; subst.
  cbn [find fst]. destruct (String.eqb n name) eqn:E.
  - apply String.eqb_eq in E. subst n.
    destruct o as [g|]; cbn [collect_gradients];
      rewrite (IH _ name Hrest), (find_name_fresh params name Hnot);
      [apply getitem_setitem_eq | reflexivity].
  - apply String.eqb_neq in E.
    destruct o as [g|]; cbn [collect_gradients]; rewrite (IH _ name Hrest);
      [|reflexivity].
    destruct (find _ params) as [[k [v|]]|]; try reflexivity;
      apply getitem_setitem_ne; exact E.
Qed.

(** X23: the gradient dict a call builds.  It holds exactly the parameters
    whose gradient is not None, each name once; and when the parameter names
    are distinct, each under its own gradient. *)
Theorem collected_gradients
    (params : list (string * option tensor)) :
  well_formed_dict (collect_gradients params [])
  /\ (forall name,
        In name (keys (collect_gradients params []))
        <-> exists grad, In (name, Some grad) params)
  /\ (NoDup (map fst params) ->
      forall name grad,
        getitem (collect_gradients params []) name = Ok grad
        <-> In (name, Some grad) params).
Proof.
  destruct (collect_gradients_keys params [] (NoDup_nil _)) as [Hwf Hkeys].
  split; [exact Hwf|]. split.
  - intros name. rewrite Hkeys. simpl. split; [intros [[]|H]; exact H | auto].
  - intros Hnd name grad. rewrite (collect_gradients_value params [] name Hnd).
    destruct (find (fun p => String.eqb (fst p) name) params)
      as [[k [v|]]|] eqn:Hfind.
    + apply find_some in Hfind. destruct Hfind as [Hin Hk].
      simpl in Hk. apply String.eqb_eq in Hk. subst k. split.
      * intros [= <-]. exact Hin.
      * intros Hin'. f_equal.
        assert (Hsame : Some v = Some grad).
        { clear - Hnd Hin Hin'. induction params as [|[k o] params IH];
            [contradiction|].
          simpl in Hnd. inversion Hnd as [|? ? Hnot Hrest]; subst.
          destruct Hin as [[= -> ->]|Hin], Hin' as [[= <-]|Hin'].
          - reflexivity.
          - exfalso. apply Hnot. exact (in_map fst _ _ Hin').
          - exfalso. subst. apply Hnot. exact (in_map fst _ _ Hin).
          - exact (IH Hrest Hin Hin'). }
        congruence.
    + apply find_some in Hfind. destruct Hfind as [Hin Hk].
      simpl in Hk. apply String.eqb_eq in Hk. subst k. simpl. split.
      * discriminate.
      * intros Hin'. exfalso.
        clear - Hnd Hin Hin'. induction params as [|[k o] params IH];
          [contradiction|].
        simpl in Hnd. inversion Hnd as [|? ? Hnot Hrest]; subst.
        destruct Hin as [[= -> ->]|Hin], Hin' as [Heq|Hin'].
        -- discriminate Heq.
        -- apply Hnot. exact (in_map fst _ _ Hin').
        -- injection Heq as -> _. apply Hnot. exact (in_map fst _ _ Hin).
        -- exact (IH Hrest Hin Hin').
    + simpl. split; [discriminate|]. intros Hin. exfalso.
      pose proof (find_none _ _ Hfind _ Hin) as Hk. simpl in Hk.
      rewrite String.eqb_refl in Hk. discriminate Hk.
Qed.





End GradientsAndRegistry.

(** ** Two calls in a row *)

Section TwoCalls.
Import PyFloatFacts.

Variable tensor : Type.
Variable model : Type.
Variable norm_item : tensor -> pyfloat.
Variable tobytes : tensor -> bytes.
Variable sha256 : bytes -> bytes.
Variable slice : tensor -> Z -> Z -> tensor.
Variable count_correct : tensor -> tensor -> Z.
Variable size0 : tensor -> Z.
Variable mse_item : tensor -> tensor -> pyfloat.
Variable mae_item : tensor -> tensor -> pyfloat.
Variable repr_proof_data : string -> string -> pyfloat -> dict pyfloat -> Z -> bytes.
Variable stored : string -> option (ModelConfig * model).

Local Abbreviation compute :=
  (compute_gradients norm_item tobytes sha256 slice count_correct size0
                     mse_item mae_item repr_proof_data stored).

Lemma load_model_again
    (self : ModelRegistry model) (id : string) (m : model)
    (reg : ModelRegistry model) :
  load_model stored self id = (Some m, reg) ->
  load_model stored reg id = (Some m, reg).
Proof.
  unfold load_model.
  destruct (getitem (models self) id) as [m0|e] eqn:Hget.
  - intros [= <- <-]. rewrite Hget. reflexivity.
  - destruct (stored id) as [[config m0]|]; [|discriminate].
    intros [= <- <-]. simpl. rewrite DictMore.getitem_setitem_eq. reflexivity.
Qed.

(** X26: the same computation twice.  On a computer without a previous
    loss, a call and then the same call again (same task, same data, same run
    of the executor) with a finite positive loss return the same loss and the
    same gradient hash, but not the same score: the first score is the
    magnitude sub-score [m] and the second is [(m + 0.5) / 2]. *)
Theorem same_computation_twice
    (self self1 self2 : GradientComputer model) (task : TrainingTask)
    (data targets : tensor) (run : execution tensor model)
    (res1 res2 : ComputeResult) (l : R) :
  prev_loss self = None ->
  compute self task data targets run = Ok (res1, self1) ->
  compute self1 task data targets run = Ok (res2, self2) ->
  loss res1 = Fin l ->
  (0 < l)%R ->
  loss res2 = loss res1
  /\ gradient_hash res2 = gradient_hash res1
  /\ exists m,
       quality_score res1 = Fin m
       /\ quality_score res2 = Fin ((m + 0.5) / 2).
Proof.
  intros Hnone Hcall1 Hcall2 Hl Hpos.
  destruct (compute_gradients_inv _ _ _ _ _ _ _ _ _ _ _ _ _ _ _ _ _ _ _ Hcall1)
    as (m1 & reg & Hload1 & _ & Hloss1 & Hscore1 & Hhash1 & _ & ->).
  destruct (compute_gradients_inv _ _ _ _ _ _ _ _ _ _ _ _ _ _ _ _ _ _ _ Hcall2)
    as (m2 & reg2 & Hload2 & _ & Hloss2 & Hscore2 & Hhash2 & _ & _).
  cbn [registry prev_loss] in Hload2, Hscore2.
  rewrite (load_model_again _ _ _ _ Hload1) in Hload2.
  injection Hload2 as <- <-.
  assert (Hsame : loss res2 = loss res1).
  { rewrite Hloss1, Hloss2. reflexivity. }
  split; [exact Hsame|]. split; [congruence|].
  rewrite Hnone in Hscore1. rewrite Hsame, Hl in Hscore2. rewrite Hl in Hscore1.
  rewrite quality_eq in Hscore1, Hscore2.
  destruct (squares_fit norm_item
              (collect_gradients (named_parameters run m1) []));
    [|discriminate Hscore1].
  destruct (spec_magnitude_unit
              (spec_total_norm norm_item
                 (collect_gradients (named_parameters run m1) [])))
    as (m & Hm & _).
  { apply py_pow_half_nonneg. apply sum_of_squared_norms_nonneg. }
  destruct (spec_improvement_finite l l Hpos) as (i & Hi & _ & Heq & _).
  simpl flt in Hscore2. rewrite (proj2 (Rltb_true 0 l) Hpos) in Hscore2.
  rewrite Hm, mean_of_one in Hscore1.
  rewrite Hm, Hi, mean_of_two, (Heq eq_refl) in Hscore2.
  exists m. split; congruence.
Qed.

(** X27: a loss that is not positive clears the history.  After a call
    whose loss is zero, negative or NaN, the score of the next call is the
    score a computer without previous loss gives: the magnitude sub-score
    alone. *)
Theorem non_positive_loss_clears_history
    (self self1 self2 : GradientComputer model) (task task2 : TrainingTask)
    (data targets data2 targets2 : tensor) (run run2 : execution tensor model)
    (res1 res2 : ComputeResult) :
  compute self task data targets run = Ok (res1, self1) ->
  flt (Fin 0) (loss res1) = false ->
  compute self1 task2 data2 targets2 run2 = Ok (res2, self2) ->
  exists m2 reg2,
    load_model stored (registry self1) (model_id task2) = (Some m2, reg2)
    /\ compute_gradient_quality norm_item
         (collect_gradients (named_parameters run2 m2) []) (loss res2) None
       = Ok (quality_score res2).
Proof.
  intros Hcall1 Hflt Hcall2.
  destruct (compute_gradients_inv _ _ _ _ _ _ _ _ _ _ _ _ _ _ _ _ _ _ _ Hcall1)
    as (m1 & reg & _ & _ & _ & _ & _ & _ & ->).
  destruct (compute_gradients_inv _ _ _ _ _ _ _ _ _ _ _ _ _ _ _ _ _ _ _ Hcall2)
    as (m2 & reg2 & Hload2 & _ & _ & Hscore2 & _).
  exists m2, reg2. split; [exact Hload2|].
  cbn [prev_loss] in Hscore2.
  rewrite quality_eq in Hscore2. rewrite quality_eq.
  rewrite Hflt in Hscore2. exact Hscore2.
Qed.

End TwoCalls.

Module ComputerMoreExamples.
Import Examples MoreExamples.

Local Abbreviation compute :=
  (compute_gradients norm_item tobytes sha256 slice count_correct size0
                     mse_item mae_item repr_proof_data stored).

(** On the test registry a call for [task_a] returns, with the loss of the
    run, and leaves the registry as it is. *)
Lemma call_returns (l : pyfloat) (c : GradientComputer model) :
  registry c = test_registry ->
  exists res c',
    compute c task_a test_data test_targets (run_with_loss l) = Ok (res, c')
    /\ loss res = l
    /\ registry c' = test_registry.
Proof.
  intros Hreg.
  assert (Hload : load_model stored (registry c) (model_id task_a)
                  = (Some 7%nat, test_registry)) by (rewrite Hreg; reflexivity).
  destruct (compute_gradients_returns
              tensor model norm_item tobytes sha256 slice count_correct size0
              mse_item mae_item repr_proof_data stored
              c task_a test_data test_targets (run_with_loss l)
              7%nat test_registry Hload
              (ComputerExamples.test_squares_fit l 7%nat)
              ComputerExamples.test_batch_not_empty)
    as (res & c' & Hcall & Hloss).
  exists res, c'. split; [exact Hcall|]. split; [exact Hloss|].
  destruct (compute_gradients_inv
              tensor model norm_item tobytes sha256 slice count_correct size0
              mse_item mae_item repr_proof_data stored
              c task_a test_data test_targets (run_with_loss l) res c' Hcall)
    as (m & reg & Hload' & _ & _ & _ & _ & _ & ->).
  rewrite Hload in Hload'. injection Hload' as _ <-. reflexivity.
Qed.

Lemma computed_result_verifies_witness :
  exists res c',
    compute test_computer task_a test_data test_targets (run_with_loss (Fin 2))
    = Ok (res, c')
    /\ verify_result sha256 repr_proof_data test_computer res task_a verify_time
       = true.
Proof.
  destruct (call_returns (Fin 2) test_computer eq_refl) as (res & c' & Hcall & _).
  exists res, c'. split; [exact Hcall|].
  exact (computed_result_verifies
           tensor model norm_item tobytes sha256 slice count_correct size0
           mse_item mae_item repr_proof_data stored
           test_computer task_a test_data test_targets (run_with_loss (Fin 2))
           res c' Hcall test_computer task_a verify_time).
Defined.

Lemma result_metrics_witness :
  exists res c',
    compute test_computer task_a test_data test_targets (run_with_loss (Fin 2))
    = Ok (res, c')
    /\ getitem (metrics res) "loss" = Ok (loss res)
    /\ getitem (metrics res) "compute_time" = Ok (fsub (Fin 11) (Fin 10)).
Proof.
  destruct (call_returns (Fin 2) test_computer eq_refl) as (res & c' & Hcall & _).
  exists res, c'. split; [exact Hcall|].
  destruct (result_metrics
              tensor model norm_item tobytes sha256 slice count_correct size0
              mse_item mae_item repr_proof_data stored
              test_computer task_a test_data test_targets (run_with_loss (Fin 2))
              res c' Hcall) as (Hloss & Htime & _).
  split; [exact Hloss | exact Htime].
Defined.


Lemma same_computation_twice_witness :
  exists res1 c1 res2 c2 m,
    prev_loss test_computer = None
    /\ compute test_computer task_a test_data test_targets (run_with_loss (Fin 2))
       = Ok (res1, c1)
    /\ compute c1 task_a test_data test_targets (run_with_loss (Fin 2))
       = Ok (res2, c2)
    /\ loss res1 = Fin 2
    /\ (0 < 2)%R
    /\ quality_score res1 = Fin m
    /\ quality_score res2 = Fin ((m + 0.5) / 2).
Proof.
  destruct (call_returns (Fin 2) test_computer eq_refl)
    as (res1 & c1 & Hcall1 & Hloss1 & Hreg1).
  destruct (call_returns (Fin 2) c1 Hreg1) as (res2 & c2 & Hcall2 & _).
  assert (Hpos : (0 < 2)%R) by lra.
  destruct (same_computation_twice
              tensor model norm_item tobytes sha256 slice count_correct size0
              mse_item mae_item repr_proof_data stored
              test_computer c1 c2 task_a test_data test_targets
              (run_with_loss (Fin 2)) res1 res2 2 eq_refl Hcall1 Hcall2 Hloss1 Hpos)
    as (_ & _ & m & Hm1 & Hm2).
  exists res1, c1, res2, c2, m. repeat split; assumption.
Defined.

Lemma non_positive_loss_clears_history_witness :
  exists res1 c1 res2 c2,
    compute test_computer task_a test_data test_targets (run_with_loss NaN)
    = Ok (res1, c1)
    /\ flt (Fin 0) (loss res1) = false
    /\ compute c1 task_a test_data test_targets (run_with_loss (Fin 2))
       = Ok (res2, c2)
    /\ exists m2 reg2,
         load_model stored (registry c1) (model_id task_a) = (Some m2, reg2)
         /\ compute_gradient_quality norm_item
              (collect_gradients (named_parameters (run_with_loss (Fin 2)) m2) [])
              (loss res2) None
            = Ok (quality_score res2).
Proof.
  destruct (call_returns NaN test_computer eq_refl)
    as (res1 & c1 & Hcall1 & Hloss1 & Hreg1).
  destruct (call_returns (Fin 2) c1 Hreg1) as (res2 & c2 & Hcall2 & _).
  assert (Hflt : flt (Fin 0) (loss res1) = false) by (rewrite Hloss1; reflexivity).
  exists res1, c1, res2, c2.
  split; [exact Hcall1|]. split; [exact Hflt|]. split; [exact Hcall2|].
  exact (non_positive_loss_clears_history
           tensor model norm_item tobytes sha256 slice count_correct size0
           mse_item mae_item repr_proof_data stored
           test_computer c1 c2 task_a task_a
           test_data test_targets test_data test_targets
           (run_with_loss NaN) (run_with_loss (Fin 2)) res1 res2
           Hcall1 Hflt Hcall2).
Defined.

Lemma empty_batch_is_ZeroDivisionError_witness :
  load_model stored (registry test_computer) (model_id task_beyond)
  = (Some 7%nat, test_registry)
  /\ compute test_computer task_beyond test_data test_targets
             (run_with_loss (Fin 2))
     = Raise ZeroDivisionError.
Proof.
  assert (Hload : load_model stored (registry test_computer) (model_id task_beyond)
                  = (Some 7%nat, test_registry)) by reflexivity.
  split; [exact Hload|].
  apply (proj1 (empty_batch_is_ZeroDivisionError
                  tensor model norm_item tobytes sha256 slice count_correct size0
                  mse_item mae_item repr_proof_data stored
                  test_computer task_beyond test_data test_targets
                  (run_with_loss (Fin 2)) 7%nat test_registry Hload)).
  split; [|split; reflexivity].
  apply compute_gradient_quality_returns. exact (ComputerExamples.test_squares_fit (Fin 2) 7%nat).
Defined.

(** A model nobody registered, on the test registry. *)
Example unknown_model_raises :
  compute test_computer task_unknown_model test_data test_targets
          (run_with_loss (Fin 2))
  = Raise (ValueError "Model not found: no_such_model").
Proof. reflexivity. Qed.

End ComputerMoreExamples.
